(** * ncci/tbme.py: the h2mixer input generated by [generate_tbme]

    A shallow embedding of [generate_tbme] (src/ncci/tbme.py) and the
    properties of the script it compiles: truncation resolution, target
    accumulation, source resolution and the emitted line sequence.

    Conventions of the embedding.
    - Python exceptions are values of [exception]; a computation that may
      raise returns a [result].
    - The local list [lines] is the state of the monad [M]; a run returns the
      outcome together with the lines accumulated when it ended, so that the
      point at which an exception is raised is visible.
    - Oscillator frequencies and operator coefficients are Python floats
      (IEEE binary64, Rocq's primitive [float]); mass numbers, truncation
      parameters and the output format are Python integers ([Z]).
    - [dict]s used for lookup are [gmap]s, [set]s are [gset]s, and the
      [OrderedDict] of targets is an association list updated in place.
    - The sibling modules [modes], [utils], [environ] and [operators] and
      Python's own formatting are not part of tbme.py: their functions are
      class fields (parameters), their enumerations are modelled from the
      specification. *)

From Stdlib Require Import ZArith Floats DecimalString.
From stdpp Require Import base option list sorting gmap strings.

Local Open Scope Z_scope.

(** ** Exceptions and results *)

Inductive exception : Type :=
  | ScriptError (msg : string)   (* mcscript.exception.ScriptError *)
  | KeyError (key : string)      (* a failed dict subscript *)
  | ZeroDivisionError.           (* float division by zero *)

Inductive result (A : Type) : Type :=
  | Ok (x : A)
  | Raise (e : exception).
Arguments Ok {A} x.
Arguments Raise {A} e.

Global Instance result_ret : MRet result := λ A x, Ok x.
Global Instance result_bind : MBind result := λ A B f r,
  match r with
  | Ok x => f x
  | Raise e => Raise e
  end.

(** ** The monad of [generate_tbme]: the list [lines] and exceptions *)

Definition M (A : Type) : Type := list string → result A * list string.

Global Instance M_ret : MRet M := λ A x lines, (Ok x, lines).
Global Instance M_bind : MBind M := λ A B f m lines,
  match m lines with
  | (Ok x, lines') => f x lines'
  | (Raise e, lines') => (Raise e, lines')
  end.

(** [raise E] *)
Definition raise {A} (e : exception) : M A := λ lines, (Raise e, lines).

(** [lines.append(line)] *)
Definition append (line : string) : M unit := λ lines, (Ok tt, lines ++ [line]).

(** A computation that does not touch [lines]. *)
Definition lift {A} (r : result A) : M A := λ lines, (r, lines).

(** [for x in xs: body(x)] *)
Fixpoint for_each {A} (xs : list A) (body : A → M unit) : M unit :=
  match xs with
  | [] => mret tt
  | x :: xs' => body x ;; for_each xs' body
  end.

(** [lines = []] followed by the body. *)
Definition run {A} (m : M A) : result A * list string := m [].

(** ** Python values *)

(** Elements of the tuples that describe a truncation, such as
    [("ob", 4)] or [(2, 4)]. *)
Inductive pyval : Type :=
  | PyStr (s : string)
  | PyInt (n : Z).

Definition tuple : Type := list pyval.

(** ["{}".format(n)] for an integer. *)
Definition str_int (n : Z) : string := NilZero.string_of_int (Z.to_int n).

(** [a / b] on floats. *)
Definition truediv (a b : float) : result float :=
  if (b =? 0)%float then Raise ZeroDivisionError else Ok (a / b)%float.

(** [a != b] on floats. *)
Definition float_ne (a b : float) : bool := negb (a =? b)%float.

(** [sum(xs)] on integers. *)
Definition sum (xs : list Z) : Z := foldl Z.add 0 xs.

(** *** The order of [str] *)

Definition str_le (s1 s2 : string) : Prop := String.leb s1 s2 = true.

Global Instance str_le_dec s1 s2 : Decision (str_le s1 s2).
Proof. unfold str_le. apply _. Defined.

(** *** Ordered dictionaries

    [collections.OrderedDict] and the ordered mappings of operators, as
    association lists in insertion order. *)

Section odict.
Context {V : Type}.

(** [d[k] = v]: an existing key keeps its position. *)
Fixpoint setitem (k : string) (v : V) (d : list (string * V)) : list (string * V) :=
  match d with
  | [] => [(k, v)]
  | (k', v') :: d' =>
      if String.eqb k k' then (k, v) :: d' else (k', v') :: setitem k v d'
  end.

(** [k in d] *)
Definition contains (k : string) (d : list (string * V)) : bool :=
  existsb (λ kv, String.eqb k kv.1) d.

(** [d[k]], for a key that may be absent. *)
Fixpoint getitem (k : string) (d : list (string * V)) : option V :=
  match d with
  | [] => None
  | (k', v') :: d' => if String.eqb k k' then Some v' else getitem k d'
  end.

(** [d.keys()] *)
Definition keys (d : list (string * V)) : list string := d.*1.
End odict.

(** ** modes.py *)

(** Modelled from the spec: the enumerations of modes.py, which tbme.py
    consumes and does not define.  tbme.py names [BasisMode.kDirect],
    [BasisMode.kDilated], [SingleParticleTruncationMode.kNmax],
    [ManyBodyTruncationMode.kNmax] and [ManyBodyTruncationMode.kFCI]; the
    other members are the specification's "fully general transformed" basis
    mode, its "weight-based" single-particle truncation and its
    "weight-based" many-body truncation. *)
Module modes.
Module BasisMode.
Inductive t : Type := kDirect | kDilated | kGeneric.
End BasisMode.
Module SingleParticleTruncationMode.
Inductive t : Type := kNmax | kTriangular.
End SingleParticleTruncationMode.
Module ManyBodyTruncationMode.
Inductive t : Type := kNmax | kWeightMax | kFCI.
End ManyBodyTruncationMode.
End modes.

Global Instance BasisMode_eq_dec : EqDecision modes.BasisMode.t.
Proof. solve_decision. Defined.
Global Instance SingleParticleTruncationMode_eq_dec :
  EqDecision modes.SingleParticleTruncationMode.t.
Proof. solve_decision. Defined.
Global Instance ManyBodyTruncationMode_eq_dec :
  EqDecision modes.ManyBodyTruncationMode.t.
Proof. solve_decision. Defined.

(** ** Operators and source descriptors *)

(** A two-body operator: an ordered mapping from source id to coefficient. *)
Definition Operator : Type := list (string * float).

(** The ordered dictionary of targets, from file basename to operator. *)
Definition Targets : Type := list (string * Operator).

(** Modelled from the spec: the arguments of [operators.TwoBodyOperatorSource],
    whose class is defined in operators.py.  A descriptor is built-in (no
    data) or carries an input file and, optionally, a transformation file
    with its truncation; an argument that the caller leaves out is [None]. *)
Record TwoBodyOperatorSource : Type := mkSource {
  filename : option string;
  xform_filename : option string;
  xform_truncation : option tuple;
}.

(** ** The task dictionary

    The keys that [generate_tbme] subscripts are fields; the keys it reads
    with [task.get] are optional fields; [truncation_parameters] stays a
    dictionary, since the keys it needs depend on the truncation modes. *)
Record Task : Type := mkTask {
  nuclide : list Z;
  a_cm : float;
  hw : float;
  hw_cm : option float;
  hw_int : float;
  hw_coul : float;
  hw_coul_rescaled : option float;
  xform_truncation_int : option tuple;
  truncation_int : tuple;
  xform_truncation_coul : option tuple;
  truncation_coul : tuple;
  basis_mode : modes.BasisMode.t;
  hamiltonian : option Operator;
  use_coulomb : bool;
  tb_observables : option (list (string * Operator));
  observable_sets : list string;
  target_truncation : option tuple;
  truncation_parameters : gmap string Z;
  sp_truncation_mode : modes.SingleParticleTruncationMode.t;
  mb_truncation_mode : modes.ManyBodyTruncationMode.t;
  h2_format : Z;
  interaction : string;
  interaction_file : option string;
  coulomb_file : option string;
  user_tbme_sources : option (list (string * TwoBodyOperatorSource));  (* key tbme_sources *)
}.

(** ** The collaborators of tbme.py, as interfaces *)

(** Python's own rendering of values that tbme.py formats with [{}] and
    [{:e}], and the order in which a [set] of strings is iterated (it is not
    fixed by the language: it varies with the hash seed of the run). *)
Module python.
Class Format : Type := {
  str_task : Task → string;                       (* "{}".format(task) *)
  str_float : float → string;                     (* "{}".format(x) *)
  format_e : float → string;                      (* "{:e}".format(x) *)
  str_BasisMode : modes.BasisMode.t → string;
  str_ManyBodyTruncationMode : modes.ManyBodyTruncationMode.t → string;
  }.
Class SetOrder : Type := {
  iter : gset string → list string;
  iter_elements : ∀ X, iter X ≡ₚ elements X;
  }.
End python.

Module utils.
Class Lib : Type := {
  weight_max_string : tuple → string;
  }.
End utils.

Module environ.
Class Naming : Type := {
  orbitals_filename : string → string;
  radial_me_filename : string → string → Z → string;
  radial_pn_olap_filename : string → string;
  interaction_filename : string → tuple → float → string;
  radial_olap_int_filename : string → string;
  radial_olap_coul_filename : string → string;
  h2mixer_filename : string → string;
  shell_filename : string → string;
  }.
End environ.

Module operators.
Class Library : Type := {
  Hamiltonian : Z → float → float → float → bool → float → Operator;
  TwoBodyOperator : Operator → Operator;
  rrel2 : Z → float → Operator;
  Ncm : Z → float → Operator;
  Trel : Z → float → Operator;
  Tcm : Z → float → Operator;
  VNN : Operator;
  VC : float → Operator;
  L2 : Operator;
  Sp2 : Operator;
  Sn2 : Operator;
  S2 : Operator;
  J2 : Operator;
  T2 : Operator;
  k_h2mixer_builtin_operators : gset string;
  get_h2mixer_line : TwoBodyOperatorSource → string → string;
  }.
End operators.

(** The calls that end [generate_tbme], in the order they are made. *)
Inductive action : Type :=
  | write_input (file : string) (input_lines : list string)
  | call (argv : list string) (input_lines : option (list string)).

(** ** generate_tbme *)

Section generate_tbme.
Context `{!python.Format, !python.SetOrder, !utils.Lib, !environ.Naming,
          !operators.Library}.

Import modes.

(** [sorted(X)] for a set of strings: the elements, in the order the set
    yields them, sorted by the order of [str]. *)
Definition sorted (X : gset string) : list string :=
  merge_sort str_le (python.iter X).

(** The truth value of an optional sequence or mapping: [None] and the
    empty container are false. *)
Definition truthy {A} (x : option (list A)) : bool :=
  match x with
  | Some (_ :: _) => true
  | _ => false
  end.

(** [lines] as it stands. *)
Definition get_lines : M (list string) := λ lines, (Ok lines, lines).

(** *** Lines 42-59: parameters *)

Definition get_A (task : Task) : Z := sum (nuclide task).

Definition get_hw_cm (task : Task) : float :=
  match hw_cm task with
  | None => hw task
  | Some hw_cm => hw_cm
  end.

Definition get_hw_coul_rescaled (task : Task) : float :=
  match hw_coul_rescaled task with
  | None => hw task
  | Some hw_coul_rescaled => hw_coul_rescaled
  end.

Definition get_xform_truncation_int (task : Task) : tuple :=
  match xform_truncation_int task with
  | None => truncation_int task
  | Some xform_truncation_int => xform_truncation_int
  end.

Definition get_xform_truncation_coul (task : Task) : tuple :=
  match xform_truncation_coul task with
  | None => truncation_coul task
  | Some xform_truncation_coul => xform_truncation_coul
  end.

(** *** Lines 61-66: sanity check on hw *)

Definition sanity_check (task : Task) : result unit :=
  if bool_decide (basis_mode task = BasisMode.kDirect)
     && float_ne (hw task) (hw_int task)
  then Raise (ScriptError
         ("Using basis mode " +:+ python.str_BasisMode (basis_mode task)
          +:+ " but hw = " +:+ python.str_float (hw task)
          +:+ " and hw_int = " +:+ python.str_float (hw_int task)))
  else Ok tt.

(** *** Lines 68-113: accumulate h2mixer targets *)

(** Lines 71-78, target: Hamiltonian. *)
Definition target_hamiltonian (task : Task) (targets : Targets) : result Targets :=
  if truthy (hamiltonian task) then
    Ok (setitem "tbme-H" (default [] (hamiltonian task)) targets)
  else
    bsqr_intr ← truediv (hw task) (get_hw_cm task);
    bsqr_coul ← truediv (get_hw_coul_rescaled task) (hw_coul task);
    Ok (setitem "tbme-H"
          (operators.Hamiltonian (get_A task) (hw task) (a_cm task) bsqr_intr
             (use_coulomb task) bsqr_coul)
          targets).

(** Lines 80-83, accumulate observables. *)
Definition target_observables (task : Task) (targets : Targets) : Targets :=
  if truthy (tb_observables task) then
    foldl (λ targets '(basename, operator),
             setitem ("tbme-" +:+ basename) (operators.TwoBodyOperator operator) targets)
          targets (default [] (tb_observables task))
  else targets.

(** Lines 85-87, target: radius squared. *)
Definition target_rrel2 (task : Task) (targets : Targets) : Targets :=
  if negb (contains "tbme-rrel2" targets) then
    setitem "tbme-rrel2" (operators.rrel2 (get_A task) (hw task)) targets
  else targets.

(** Lines 89-91, target: Ncm. *)
Definition target_Ncm (task : Task) (targets : Targets) : result Targets :=
  if negb (contains "tbme-Ncm" targets) then
    bsqr ← truediv (hw task) (get_hw_cm task);
    Ok (setitem "tbme-Ncm" (operators.Ncm (get_A task) bsqr) targets)
  else Ok targets.

(** Lines 95-104, Hamiltonian components. *)
Definition target_H_components (task : Task) (targets : Targets) : result Targets :=
  if bool_decide ("H-components" ∈ observable_sets task) then
    let targets := setitem "tbme-Trel" (operators.Trel (get_A task) (hw task)) targets in
    let targets := setitem "tbme-Tcm" (operators.Tcm (get_A task) (hw task)) targets in
    let targets := setitem "tbme-VNN" operators.VNN targets in
    if use_coulomb task then
      bsqr_coul ← truediv (get_hw_coul_rescaled task) (hw_coul task);
      Ok (setitem "tbme-VC" (operators.VC bsqr_coul) targets)
    else Ok targets
  else Ok targets.

(** Lines 106-111, squared angular momenta. *)
Definition target_am_sqr (task : Task) (targets : Targets) : Targets :=
  if bool_decide ("am-sqr" ∈ observable_sets task) then
    let targets := setitem "tbme-L2" operators.L2 targets in
    let targets := setitem "tbme-Sp2" operators.Sp2 targets in
    let targets := setitem "tbme-Sn2" operators.Sn2 targets in
    let targets := setitem "tbme-S2" operators.S2 targets in
    setitem "tbme-J2" operators.J2 targets
  else targets.

(** Lines 112-113, isospin. *)
Definition target_isospin (task : Task) (targets : Targets) : Targets :=
  if bool_decide ("isospin" ∈ observable_sets task) then
    setitem "tbme-T2" operators.T2 targets
  else targets.

Definition accumulate_targets (task : Task) : result Targets :=
  let targets : Targets := [] in
  targets ← target_hamiltonian task targets;
  let targets := target_observables task targets in
  let targets := target_rrel2 task targets in
  targets ← target_Ncm task targets;
  targets ← target_H_components task targets;
  let targets := target_am_sqr task targets in
  let targets := target_isospin task targets in
  Ok targets.

(** *** Lines 115-117: the set of required sources *)

Definition required_sources (targets : Targets) : gset string :=
  ⋃ ((λ op : Operator, list_to_set (keys op)) <$> targets.*2).

(** *** Lines 126-156: the truncation of the target indexing *)

(** [truncation_parameters[key]] *)
Definition getparam (truncation_parameters : gmap string Z) (key : string) : result Z :=
  match truncation_parameters !! key with
  | Some v => Ok v
  | None => Raise (KeyError key)
  end.

Definition target_weight_max (task : Task) : result string :=
  match target_truncation task with
  | None =>
      (* automatic derivation *)
      let truncation_parameters := truncation_parameters task in
      if decide (sp_truncation_mode task = SingleParticleTruncationMode.kNmax) then
        if decide (mb_truncation_mode task = ManyBodyTruncationMode.kNmax) then
          N1_max ← (Nv ← getparam truncation_parameters "Nv";
                    Nmax ← getparam truncation_parameters "Nmax";
                    Ok (Nv + Nmax));
          N2_max ← (Nv ← getparam truncation_parameters "Nv";
                    Nmax ← getparam truncation_parameters "Nmax";
                    Ok (2 * Nv + Nmax));
          Ok (utils.weight_max_string [PyInt N1_max; PyInt N2_max])
        else if decide (mb_truncation_mode task = ManyBodyTruncationMode.kFCI) then
          N1_max ← getparam truncation_parameters "Nmax";
          Ok (utils.weight_max_string [PyStr "ob"; PyInt N1_max])
        else
          Raise (ScriptError
                   ("invalid mb_truncation_mode "
                    +:+ python.str_ManyBodyTruncationMode (mb_truncation_mode task)))
      else
        if decide (mb_truncation_mode task = ManyBodyTruncationMode.kFCI) then
          w1_max ← getparam truncation_parameters "sp_weight_max";
          Ok (utils.weight_max_string [PyStr "ob"; PyInt w1_max])
        else
          w1_max ← getparam truncation_parameters "sp_weight_max";
          w2_max ← (mb_weight_max ← getparam truncation_parameters "mb_weight_max";
                    sp_weight_max ← getparam truncation_parameters "sp_weight_max";
                    Ok (Z.min mb_weight_max (2 * sp_weight_max)));
          Ok (utils.weight_max_string [PyInt w1_max; PyInt w2_max])
  | Some target_truncation =>
      (* given value *)
      Ok (utils.weight_max_string target_truncation)
  end.

(** Lines 126-165, global mode definitions. *)
Definition global_modes (task : Task) (postfix : string) : M unit :=
  target_weight_max ← lift (target_weight_max task);
  append ("set-target-indexing " +:+ environ.orbitals_filename postfix
          +:+ " " +:+ target_weight_max);;
  append "set-target-multipolarity 0 0 0";;
  append ("set-output-format " +:+ str_int (h2_format task));;
  append ("set-mass " +:+ str_int (get_A task));;
  append "".

(** Lines 167-177, radial operator inputs and pn overlap input. *)
Definition radial_inputs (postfix : string) : M unit :=
  for_each ["r"; "k"] (λ operator_type,
    for_each [1; 2] (λ power,
      let radial_me_filename := environ.radial_me_filename postfix operator_type power in
      append ("define-radial-operator " +:+ operator_type +:+ " " +:+ str_int power
              +:+ " " +:+ radial_me_filename)));;
  append "";;
  let pn_olap_me_filename := environ.radial_pn_olap_filename postfix in
  append ("define-pn-overlaps " +:+ pn_olap_me_filename);;
  append "".

(** *** Lines 179-229: the sources *)

(** Lines 179-183, sources: h2mixer built-ins. *)
Definition sources_builtin (required_sources : gset string)
    (tbme_sources : gmap string TwoBodyOperatorSource) : gmap string TwoBodyOperatorSource :=
  let builtin_sources := operators.k_h2mixer_builtin_operators in
  foldl (λ tbme_sources source, <[source := mkSource None None None]> tbme_sources)
        tbme_sources (sorted (builtin_sources ∩ required_sources)).

(** Lines 185-202, sources: VNN. *)
Definition sources_VNN (task : Task) (postfix : string) (required_sources : gset string)
    (tbme_sources : gmap string TwoBodyOperatorSource) : gmap string TwoBodyOperatorSource :=
  if decide ("VNN" ∈ required_sources) then
    let VNN_filename :=
      match interaction_file task with
      | None => environ.interaction_filename
                  (interaction task) (truncation_int task) (hw_int task)
      | Some VNN_filename => VNN_filename
      end in
    if decide (basis_mode task = BasisMode.kDirect) then
      <["VNN" := mkSource (Some VNN_filename) None None]> tbme_sources
    else
      <["VNN" := mkSource (Some VNN_filename)
                   (Some (environ.radial_olap_int_filename postfix))
                   (Some (get_xform_truncation_int task))]> tbme_sources
  else tbme_sources.

(** Lines 204-223, sources: Coulomb. *)
Definition sources_VC_unscaled (task : Task) (postfix : string)
    (required_sources : gset string)
    (tbme_sources : gmap string TwoBodyOperatorSource) : gmap string TwoBodyOperatorSource :=
  if decide ("VC_unscaled" ∈ required_sources) then
    let VC_filename :=
      match coulomb_file task with
      | None => environ.interaction_filename "VC" (truncation_coul task) (hw_coul task)
      | Some VC_filename => VC_filename
      end in
    if decide (basis_mode task ∈ [BasisMode.kDirect; BasisMode.kDilated]) then
      <["VC_unscaled" := mkSource (Some VC_filename) None None]> tbme_sources
    else
      <["VC_unscaled" := mkSource (Some VC_filename)
                           (Some (environ.radial_olap_coul_filename postfix))
                           (Some (get_xform_truncation_coul task))]> tbme_sources
  else tbme_sources.

(** Lines 179-223: the default descriptors. *)
Definition default_sources (task : Task) (postfix : string)
    (required_sources : gset string) : gmap string TwoBodyOperatorSource :=
  let tbme_sources : gmap string TwoBodyOperatorSource := ∅ in
  let tbme_sources := sources_builtin required_sources tbme_sources in
  let tbme_sources := sources_VNN task postfix required_sources tbme_sources in
  sources_VC_unscaled task postfix required_sources tbme_sources.

(** Lines 225-229, sources: override with user-provided. *)
Definition sources_override (task : Task)
    (tbme_sources : gmap string TwoBodyOperatorSource) : gmap string TwoBodyOperatorSource :=
  match user_tbme_sources task with
  | None => tbme_sources
  | Some user_tbme_sources =>
      foldl (λ tbme_sources '(id, source), <[id := source]> tbme_sources)
            tbme_sources user_tbme_sources
  end.

(** Lines 179-229: the descriptors that the source lines are read from. *)
Definition resolve_sources (task : Task) (postfix : string)
    (required_sources : gset string) : gmap string TwoBodyOperatorSource :=
  sources_override task (default_sources task postfix required_sources).

(** Lines 231-236, sources: generate h2mixer input. *)
Definition source_lines (required_sources : gset string)
    (tbme_sources : gmap string TwoBodyOperatorSource) : M unit :=
  for_each (sorted required_sources) (λ id,
    match tbme_sources !! id with
    | Some source => append (operators.get_h2mixer_line source id)
    | None => raise (KeyError id)
    end);;
  append "".

(** *** Lines 238-246: the targets *)

Definition target_lines (postfix : string) (targets : Targets) : M unit :=
  for_each targets (λ '(basename, operator),
    append ("define-target work" +:+ postfix +:+ "/" +:+ basename +:+ ".bin");;
    for_each operator (λ '(source, coefficient),
      append ("  add-source " +:+ source +:+ " " +:+ python.format_e coefficient));;
    append "").

(** *** Lines 35-264 *)

Definition generate_tbme (task : Task) (postfix : string) : M (list action) :=
  (* sanity check on hw *)
  lift (sanity_check task);;
  (* accumulate h2mixer targets *)
  targets ← lift (accumulate_targets task);
  (* get set of required sources *)
  let required_sources := required_sources targets in
  (* accumulate h2mixer input lines; initial comment *)
  append ("# task: " +:+ python.str_task task);;
  append "";;
  (* global mode definitions *)
  global_modes task postfix;;
  (* radial operator inputs, pn overlap input *)
  radial_inputs postfix;;
  (* sources *)
  let tbme_sources := resolve_sources task postfix required_sources in
  source_lines required_sources tbme_sources;;
  (* targets: generate h2mixer input *)
  target_lines postfix targets;;
  (* ensure terminal line *)
  append "";;
  (* diagnostic: log input lines to file; work directory; invoke h2mixer *)
  lines ← get_lines;
  mret [ write_input (environ.h2mixer_filename postfix) lines;
         call ["mkdir"; "-p"; "work" +:+ postfix] None;
         call [environ.shell_filename "h2mixer"] (Some lines) ].

End generate_tbme.

(** ** An instance of the interfaces

    The theorems below hold for every implementation of the interfaces.  The
    instance of this module serves to run [generate_tbme] on concrete tasks:
    it prints floats in Python's [{:e}] form, names files after the postfix,
    and takes the sets in the order of [elements]. *)
Module sample.

(** The decimal digits of [n], at least [width] of them. *)
Definition digits (width : nat) (n : Z) : string :=
  let s := NilZero.string_of_uint (N.to_uint (Z.to_N n)) in
  String.concat "" (replicate (width - String.length s) "0") +:+ s.

(** [10^k * den <= num], for an exponent of either sign. *)
Definition pow10_le (num den k : Z) : bool :=
  if 0 <=? k then 10 ^ k * den <=? num else den <=? num * 10 ^ (- k).

(** The quotient [num / den] rounded to the nearest integer, ties to even. *)
Definition round_div (num den : Z) : Z :=
  let q := num / den in
  let r := num mod den in
  if 2 * r <? den then q
  else if den <? 2 * r then q + 1
  else if Z.even q then q else q + 1.

(** The decimal exponent of [num / den]: the largest [k] with
    [10^k <= num / den], found upwards from an underestimate. *)
Fixpoint exponent10 (fuel : nat) (num den k : Z) : Z :=
  match fuel with
  | O => k
  | S fuel' => if pow10_le num den (k + 1) then exponent10 fuel' num den (k + 1) else k
  end.

(** ["{:e}".format(x)]: six digits after the point, the exponent with a
    sign and at least two digits. *)
Definition format_e (x : float) : string :=
  match Prim2SF x with
  | S754_nan => "nan"
  | S754_infinity s => if s then "-inf" else "inf"
  | S754_zero s => if s then "-0.000000e+00" else "0.000000e+00"
  | S754_finite s m e =>
      let num := if 0 <=? e then Z.pos m * 2 ^ e else Z.pos m in
      let den := if 0 <=? e then 1 else 2 ^ (- e) in
      let k0 := (Z.log2 num - Z.log2 den - 1) * 30102 / 100000 - 1 in
      let k := exponent10 8 num den k0 in
      let scaled k := if k <=? 6 then round_div (num * 10 ^ (6 - k)) den
                      else round_div num (den * 10 ^ (k - 6)) in
      let '(q, k) := if scaled k =? 10 ^ 7 then (10 ^ 6, k + 1) else (scaled k, k) in
      let ds := digits 7 q in
      (if s then "-" else "")
      +:+ String.substring 0 1 ds +:+ "." +:+ String.substring 1 6 ds
      +:+ "e" +:+ (if k <? 0 then "-" else "+") +:+ digits 2 (Z.abs k)
  end.

(** ["{}".format(x)], exact for the integral floats below [10^16]; the
    other floats are printed in the [{:e}] form. *)
Definition str_float (x : float) : string :=
  match Prim2SF x with
  | S754_zero s => if s then "-0.0" else "0.0"
  | S754_finite s m e =>
      if (0 <=? e) && (Z.pos m * 2 ^ e <? 10 ^ 16) then
        (if s then "-" else "") +:+ digits 1 (Z.pos m * 2 ^ e) +:+ ".0"
      else if (e <? 0) && (- e <? 64) && (Z.pos m mod 2 ^ (- e) =? 0) then
        (if s then "-" else "") +:+ digits 1 (Z.pos m / 2 ^ (- e)) +:+ ".0"
      else format_e x
  | _ => format_e x
  end.

Definition str_BasisMode (m : modes.BasisMode.t) : string :=
  match m with
  | modes.BasisMode.kDirect => "BasisMode.kDirect"
  | modes.BasisMode.kDilated => "BasisMode.kDilated"
  | modes.BasisMode.kGeneric => "BasisMode.kGeneric"
  end.

Definition str_ManyBodyTruncationMode (m : modes.ManyBodyTruncationMode.t) : string :=
  match m with
  | modes.ManyBodyTruncationMode.kNmax => "ManyBodyTruncationMode.kNmax"
  | modes.ManyBodyTruncationMode.kWeightMax => "ManyBodyTruncationMode.kWeightMax"
  | modes.ManyBodyTruncationMode.kFCI => "ManyBodyTruncationMode.kFCI"
  end.

(** An abbreviated rendering of the task dictionary. *)
Definition str_task (task : Task) : string :=
  "{'nuclide': (" +:+ String.concat ", " (str_int <$> nuclide task)
  +:+ "), 'hw': " +:+ str_float (hw task) +:+ ", ...}".

Global Instance Format : python.Format := {|
  python.str_task := str_task;
  python.str_float := str_float;
  python.format_e := format_e;
  python.str_BasisMode := str_BasisMode;
  python.str_ManyBodyTruncationMode := str_ManyBodyTruncationMode;
  |}.

Global Instance SetOrder : python.SetOrder := {|
  python.iter := elements;
  python.iter_elements := λ X, reflexivity (elements X);
  |}.

(** The five weight cutoffs "wp wn wpp wnn wpn" of a truncation. *)
Definition weight_max_string (truncation : tuple) : string :=
  let cutoffs :=
    match truncation with
    | [PyStr "ob"; PyInt N] => [N; N; 2 * N; 2 * N; 2 * N]
    | [PyStr "tb"; PyInt N] => [N; N; N; N; N]
    | [PyInt w1; PyInt w2] => [w1; w1; w2; w2; w2]
    | _ => omap (λ v, match v with PyInt w => Some w | PyStr _ => None end) truncation
    end in
  String.concat " " (str_int <$> cutoffs).

Global Instance Lib : utils.Lib := {|
  utils.weight_max_string := weight_max_string;
  |}.

Definition str_pyval (v : pyval) : string :=
  match v with
  | PyStr s => s
  | PyInt n => str_int n
  end.

Global Instance Naming : environ.Naming := {|
  environ.orbitals_filename postfix := "orbitals" +:+ postfix +:+ ".dat";
  environ.radial_me_filename postfix operator_type power :=
    "radial-me-" +:+ operator_type +:+ str_int power +:+ postfix +:+ ".dat";
  environ.radial_pn_olap_filename postfix := "radial-olap-pn" +:+ postfix +:+ ".dat";
  environ.interaction_filename interaction truncation hw :=
    interaction +:+ "-" +:+ String.concat "-" (str_pyval <$> truncation)
    +:+ "-" +:+ str_float hw +:+ ".bin";
  environ.radial_olap_int_filename postfix := "radial-olap-int" +:+ postfix +:+ ".dat";
  environ.radial_olap_coul_filename postfix := "radial-olap-coul" +:+ postfix +:+ ".dat";
  environ.h2mixer_filename postfix := "h2mixer" +:+ postfix +:+ ".in";
  environ.shell_filename name := name;
  |}.

(** Operators over the sources of the mixer.  The Hamiltonian is composed
    of the relative kinetic energy, the interaction, the Coulomb term when
    it is asked for, and the Lawson term. *)
Definition of_int (n : Z) : float := PrimFloat.of_uint63 (Uint63.of_Z n).

Definition scale (c : float) (op : Operator) : Operator :=
  (λ '(source, coefficient), (source, (c * coefficient)%float)) <$> op.

Definition Trel (A : Z) (hw : float) : Operator :=
  [("Uksqr", ((of_int A - 1) / (2 * of_int A) * hw)%float);
   ("Vk1k2", (- (1 / of_int A) * hw)%float)].

Definition Tcm (A : Z) (hw : float) : Operator :=
  [("Uksqr", (1 / (2 * of_int A) * hw)%float);
   ("Vk1k2", (1 / of_int A * hw)%float)].

Definition Ncm (A : Z) (bsqr : float) : Operator :=
  [("Ursqr", (1 / (2 * of_int A * bsqr))%float);
   ("Vr1r2", (1 / (of_int A * bsqr))%float);
   ("identity", (-1.5)%float)].

Definition rrel2 (A : Z) (hw : float) : Operator :=
  [("Ursqr", ((of_int A - 1) / (of_int A * of_int A))%float);
   ("Vr1r2", (-2 / (of_int A * of_int A))%float)].

Definition VNN : Operator := [("VNN", 1%float)].

Definition VC (bsqr_coul : float) : Operator :=
  [("VC_unscaled", PrimFloat.sqrt bsqr_coul)].

Definition Hamiltonian (A : Z) (hw a_cm bsqr_intr : float) (use_coulomb : bool)
    (bsqr_coul : float) : Operator :=
  Trel A hw ++ VNN ++ (if use_coulomb then VC bsqr_coul else [])
  ++ scale a_cm (Ncm A bsqr_intr).

Definition get_h2mixer_line (source : TwoBodyOperatorSource) (id : string) : string :=
  match filename source, xform_filename source, xform_truncation source with
  | None, _, _ => "define-source operator " +:+ id
  | Some filename, Some xform_filename, Some xform_truncation =>
      "define-source xform " +:+ id +:+ " " +:+ filename +:+ " "
      +:+ weight_max_string xform_truncation +:+ " " +:+ xform_filename
  | Some filename, _, _ => "define-source input " +:+ id +:+ " " +:+ filename
  end.

Global Instance Library : operators.Library := {|
  operators.Hamiltonian := Hamiltonian;
  operators.TwoBodyOperator op := op;
  operators.rrel2 := rrel2;
  operators.Ncm := Ncm;
  operators.Trel := Trel;
  operators.Tcm := Tcm;
  operators.VNN := VNN;
  operators.VC := VC;
  operators.L2 := [("L2", 1%float)];
  operators.Sp2 := [("Sp2", 1%float)];
  operators.Sn2 := [("Sn2", 1%float)];
  operators.S2 := [("S2", 1%float)];
  operators.J2 := [("J2", 1%float)];
  operators.T2 := [("T2", 1%float)];
  operators.k_h2mixer_builtin_operators :=
    list_to_set ["identity"; "Ursqr"; "Vr1r2"; "Uksqr"; "Vk1k2";
                 "L2"; "Sp2"; "Sn2"; "S2"; "J2"; "T2"];
  operators.get_h2mixer_line := get_h2mixer_line;
  |}.

(** Tasks for He-4 at hw = 20 with the JISP16 interaction; the arguments are
    the keys that the examples vary. *)
Definition make_task (basis_mode : modes.BasisMode.t) (hw_int : float)
    (hamiltonian : option Operator) (use_coulomb : bool)
    (tb_observables : option (list (string * Operator)))
    (observable_sets : list string) (target_truncation : option tuple)
    (sp_truncation_mode : modes.SingleParticleTruncationMode.t)
    (mb_truncation_mode : modes.ManyBodyTruncationMode.t)
    (truncation_parameters : gmap string Z)
    (user_tbme_sources : option (list (string * TwoBodyOperatorSource))) : Task := {|
  nuclide := [2; 2];
  a_cm := 20;
  hw := 20;
  hw_cm := None;
  hw_int := hw_int;
  hw_coul := 20;
  hw_coul_rescaled := None;
  xform_truncation_int := None;
  truncation_int := [PyStr "tb"; PyInt 20];
  xform_truncation_coul := None;
  truncation_coul := [PyStr "tb"; PyInt 20];
  basis_mode := basis_mode;
  hamiltonian := hamiltonian;
  use_coulomb := use_coulomb;
  tb_observables := tb_observables;
  observable_sets := observable_sets;
  target_truncation := target_truncation;
  truncation_parameters := truncation_parameters;
  sp_truncation_mode := sp_truncation_mode;
  mb_truncation_mode := mb_truncation_mode;
  h2_format := 15099;
  interaction := "JISP16";
  interaction_file := None;
  coulomb_file := None;
  user_tbme_sources := user_tbme_sources;
|}.

(** The scenario of the specification: the direct basis with hw = hw_int,
    no Coulomb, no optional observable sets, Nv = 0 and Nmax = 2. *)
Definition task0 : Task :=
  make_task modes.BasisMode.kDirect 20 None false None [] None
    modes.SingleParticleTruncationMode.kNmax modes.ManyBodyTruncationMode.kNmax
    {[ "Nv" := 0; "Nmax" := 2 ]} None.

(** The direct basis with hw = 20 and hw_int = 25. *)
Definition task_hw_mismatch : Task :=
  make_task modes.BasisMode.kDirect 25 None false None [] None
    modes.SingleParticleTruncationMode.kNmax modes.ManyBodyTruncationMode.kNmax
    {[ "Nv" := 0; "Nmax" := 2 ]} None.

(** One task for each documented pair of truncation modes (the pair
    (Nmax, Nmax) is [task0]). *)
Definition task_Nmax_FCI : Task :=
  make_task modes.BasisMode.kDirect 20 None false None [] None
    modes.SingleParticleTruncationMode.kNmax modes.ManyBodyTruncationMode.kFCI
    {[ "Nmax" := 4 ]} None.

Definition task_weight_FCI : Task :=
  make_task modes.BasisMode.kDirect 20 None false None [] None
    modes.SingleParticleTruncationMode.kTriangular modes.ManyBodyTruncationMode.kFCI
    {[ "sp_weight_max" := 3 ]} None.

Definition task_weight_weight : Task :=
  make_task modes.BasisMode.kDirect 20 None false None [] None
    modes.SingleParticleTruncationMode.kTriangular modes.ManyBodyTruncationMode.kWeightMax
    {[ "sp_weight_max" := 3; "mb_weight_max" := 8 ]} None.

(** A pair of truncation modes outside the documented four: weight-based
    single-particle truncation with the Nmax many-body truncation. *)
Definition task_weight_Nmax : Task :=
  make_task modes.BasisMode.kDirect 20 None false None [] None
    modes.SingleParticleTruncationMode.kTriangular modes.ManyBodyTruncationMode.kNmax
    {[ "sp_weight_max" := 2; "mb_weight_max" := 4 ]} None.

(** An explicit target truncation, with a pair of modes that the automatic
    derivation rejects and without truncation parameters. *)
Definition task_explicit_truncation : Task :=
  make_task modes.BasisMode.kDirect 20 None false None [] (Some [PyStr "tb"; PyInt 6])
    modes.SingleParticleTruncationMode.kNmax modes.ManyBodyTruncationMode.kWeightMax
    ∅ None.

(** A user Hamiltonian with a term whose coefficient is zero. *)
Definition task_zero_coefficient : Task :=
  make_task modes.BasisMode.kDirect 20
    (Some [("VNN", 1%float); ("VC_unscaled", 0%float)]) false None [] None
    modes.SingleParticleTruncationMode.kNmax modes.ManyBodyTruncationMode.kNmax
    {[ "Nv" := 0; "Nmax" := 2 ]} None.

(** An observable over a source id that nothing resolves. *)
Definition task_unresolvable : Task :=
  make_task modes.BasisMode.kDirect 20 None false
    (Some [("custom", [("Vcustom", 1%float)])]) [] None
    modes.SingleParticleTruncationMode.kNmax modes.ManyBodyTruncationMode.kNmax
    {[ "Nv" := 0; "Nmax" := 2 ]} None.

(** The Coulomb interaction in the general basis mode. *)
Definition task_coulomb_generic : Task :=
  make_task modes.BasisMode.kGeneric 20 None true None [] None
    modes.SingleParticleTruncationMode.kNmax modes.ManyBodyTruncationMode.kNmax
    {[ "Nv" := 0; "Nmax" := 2 ]} None.

(** A user source for VNN in the general basis mode. *)
Definition task_user_source : Task :=
  make_task modes.BasisMode.kGeneric 20 None false None [] None
    modes.SingleParticleTruncationMode.kNmax modes.ManyBodyTruncationMode.kNmax
    {[ "Nv" := 0; "Nmax" := 2 ]}
    (Some [("VNN", mkSource (Some "my-VNN.bin") None None)]).

(** User observables named Ncm and rrel2, after another one. *)
Definition task_user_rrel2 : Task :=
  make_task modes.BasisMode.kDirect 20 None false
    (Some [("Ncm", [("identity", 1%float)]);
           ("QxQ", [("Ursqr", 2%float)]);
           ("rrel2", [("Ursqr", 1%float)])]) ["isospin"] None
    modes.SingleParticleTruncationMode.kNmax modes.ManyBodyTruncationMode.kNmax
    {[ "Nv" := 0; "Nmax" := 2 ]} None.

(** All three optional observable sets, with Coulomb, after a user
    observable that bears the name of one of their targets. *)
Definition task_all_sets : Task :=
  make_task modes.BasisMode.kDirect 20 None true
    (Some [("L2", [("Ursqr", 3%float)]); ("QxQ", [("Ursqr", 2%float)])])
    ["H-components"; "am-sqr"; "isospin"] None
    modes.SingleParticleTruncationMode.kNmax modes.ManyBodyTruncationMode.kNmax
    {[ "Nv" := 0; "Nmax" := 2 ]} None.

(** A user Hamiltonian that is an empty mapping. *)
Definition task_empty_hamiltonian : Task :=
  make_task modes.BasisMode.kDirect 20 (Some []) false None [] None
    modes.SingleParticleTruncationMode.kNmax modes.ManyBodyTruncationMode.kNmax
    {[ "Nv" := 0; "Nmax" := 2 ]} None.

(** The scenario of [task0] with hw_coul = 0 (and Coulomb not used). *)
Definition task_hw_coul_zero : Task := {|
  nuclide := [2; 2];
  a_cm := 20;
  hw := 20;
  hw_cm := None;
  hw_int := 20;
  hw_coul := 0;
  hw_coul_rescaled := None;
  xform_truncation_int := None;
  truncation_int := [PyStr "tb"; PyInt 20];
  xform_truncation_coul := None;
  truncation_coul := [PyStr "tb"; PyInt 20];
  basis_mode := modes.BasisMode.kDirect;
  hamiltonian := None;
  use_coulomb := false;
  tb_observables := None;
  observable_sets := [];
  target_truncation := None;
  truncation_parameters := {[ "Nv" := 0; "Nmax" := 2 ]};
  sp_truncation_mode := modes.SingleParticleTruncationMode.kNmax;
  mb_truncation_mode := modes.ManyBodyTruncationMode.kNmax;
  h2_format := 15099;
  interaction := "JISP16";
  interaction_file := None;
  coulomb_file := None;
  user_tbme_sources := None;
|}.

(** The modes (Nmax, Nmax) without the parameter Nv. *)
Definition task_missing_Nv : Task :=
  make_task modes.BasisMode.kDirect 20 None false None [] None
    modes.SingleParticleTruncationMode.kNmax modes.ManyBodyTruncationMode.kNmax
    {[ "Nmax" := 2 ]} None.

(** The dilated basis mode, with Coulomb. *)
Definition task_dilated : Task :=
  make_task modes.BasisMode.kDilated 20 None true None [] None
    modes.SingleParticleTruncationMode.kNmax modes.ManyBodyTruncationMode.kNmax
    {[ "Nv" := 0; "Nmax" := 2 ]} None.

(** The targets of a task whose accumulation succeeds. *)
Definition targets_of (task : Task) : Targets :=
  match accumulate_targets task with
  | Ok targets => targets
  | Raise _ => []
  end.

(** Another order of iteration: the reverse of [elements]. *)
Definition reversed : python.SetOrder := {|
  python.iter X := reverse (elements X);
  python.iter_elements X := reverse_Permutation (elements X);
|}.

End sample.

(** ** The script, part by part

    The lines that each stage of [generate_tbme] appends, as lists; the
    lemmas below relate them to the stages. *)

Section script.
Context `{!python.Format, !python.SetOrder, !utils.Lib, !environ.Naming,
          !operators.Library}.

(** Lines 241-242: the line of one term of an operator. *)
Definition add_source_line (term : string * float) : string :=
  "  add-source " +:+ term.1 +:+ " " +:+ python.format_e term.2.

(** Lines 240-243: the block of one target. *)
Definition target_block (postfix : string) (target : string * Operator) : list string :=
  [ "define-target work" +:+ postfix +:+ "/" +:+ target.1 +:+ ".bin" ]
  ++ (add_source_line <$> target.2) ++ [""].

(** Line 157: the line that carries the truncation of the target indexing. *)
Definition set_target_indexing_line (postfix : string) (target_weight_max : string) : string :=
  "set-target-indexing " +:+ environ.orbitals_filename postfix +:+ " " +:+ target_weight_max.

(** Lines 123-177: the lines that precede the sources. *)
Definition preamble (task : Task) (postfix : string) (target_weight_max : string) : list string :=
  [ "# task: " +:+ python.str_task task;
    "";
    set_target_indexing_line postfix target_weight_max;
    "set-target-multipolarity 0 0 0";
    "set-output-format " +:+ str_int (h2_format task);
    "set-mass " +:+ str_int (get_A task);
    "";
    "define-radial-operator r 1 " +:+ environ.radial_me_filename postfix "r" 1;
    "define-radial-operator r 2 " +:+ environ.radial_me_filename postfix "r" 2;
    "define-radial-operator k 1 " +:+ environ.radial_me_filename postfix "k" 1;
    "define-radial-operator k 2 " +:+ environ.radial_me_filename postfix "k" 2;
    "";
    "define-pn-overlaps " +:+ environ.radial_pn_olap_filename postfix;
    "" ].

(** The task with other truncation modes and truncation parameters. *)
Definition with_truncation (sp : modes.SingleParticleTruncationMode.t)
    (mb : modes.ManyBodyTruncationMode.t) (parameters : gmap string Z)
    (task : Task) : Task := {|
  nuclide := nuclide task;
  a_cm := a_cm task;
  hw := hw task;
  hw_cm := hw_cm task;
  hw_int := hw_int task;
  hw_coul := hw_coul task;
  hw_coul_rescaled := hw_coul_rescaled task;
  xform_truncation_int := xform_truncation_int task;
  truncation_int := truncation_int task;
  xform_truncation_coul := xform_truncation_coul task;
  truncation_coul := truncation_coul task;
  basis_mode := basis_mode task;
  hamiltonian := hamiltonian task;
  use_coulomb := use_coulomb task;
  tb_observables := tb_observables task;
  observable_sets := observable_sets task;
  target_truncation := target_truncation task;
  truncation_parameters := parameters;
  sp_truncation_mode := sp;
  mb_truncation_mode := mb;
  h2_format := h2_format task;
  interaction := interaction task;
  interaction_file := interaction_file task;
  coulomb_file := coulomb_file task;
  user_tbme_sources := user_tbme_sources task;
|}.

(** Lines 252-264: the calls made with the finished [lines]. *)
Definition runner (postfix : string) (lines : list string) : list action :=
  [ write_input (environ.h2mixer_filename postfix) lines;
    call ["mkdir"; "-p"; "work" +:+ postfix] None;
    call [environ.shell_filename "h2mixer"] (Some lines) ].

(** A required source id that no stage of the source resolution handles. *)
Definition unresolvable (task : Task) (id : string) : Prop :=
  (id ∉ operators.k_h2mixer_builtin_operators)
  ∧ id ≠ "VNN" ∧ id ≠ "VC_unscaled"
  ∧ (id ∉ (default [] (user_tbme_sources task)).*1).

(** Lines 232-233: the lines declared for [ids] in turn, up to the first id
    without a descriptor, and that id. *)
Fixpoint declare_sources (tbme_sources : gmap string TwoBodyOperatorSource)
    (ids : list string) : list string * option string :=
  match ids with
  | [] => ([], None)
  | id :: ids' =>
      match tbme_sources !! id with
      | None => ([], Some id)
      | Some source =>
          let '(decls, missing) := declare_sources tbme_sources ids' in
          (operators.get_h2mixer_line source id :: decls, missing)
      end
  end.

(** What the stages after the accumulation of the observables keep of the
    targets [d] that they extend to [d']: the order of the keys present, the
    absence of duplicates, and the operators of the keys tbme-rrel2 and
    tbme-Ncm. *)
Definition keeps_derived (d d' : Targets) : Prop :=
  keys d `prefix_of` keys d'
  ∧ (NoDup (keys d) → NoDup (keys d'))
  ∧ getitem "tbme-rrel2" d' = getitem "tbme-rrel2" d
  ∧ getitem "tbme-Ncm" d' = getitem "tbme-Ncm" d.

(** The keys that the optional observable sets assign (lines 95-113). *)
Definition observable_set_targets : list string :=
  [ "tbme-Trel"; "tbme-Tcm"; "tbme-VNN"; "tbme-VC";
    "tbme-L2"; "tbme-Sp2"; "tbme-Sn2"; "tbme-S2"; "tbme-J2"; "tbme-T2" ].

(** The task with other user sources under the key tbme_sources. *)
Definition with_user_sources (sources : option (list (string * TwoBodyOperatorSource)))
    (task : Task) : Task := {|
  nuclide := nuclide task;
  a_cm := a_cm task;
  hw := hw task;
  hw_cm := hw_cm task;
  hw_int := hw_int task;
  hw_coul := hw_coul task;
  hw_coul_rescaled := hw_coul_rescaled task;
  xform_truncation_int := xform_truncation_int task;
  truncation_int := truncation_int task;
  xform_truncation_coul := xform_truncation_coul task;
  truncation_coul := truncation_coul task;
  basis_mode := basis_mode task;
  hamiltonian := hamiltonian task;
  use_coulomb := use_coulomb task;
  tb_observables := tb_observables task;
  observable_sets := observable_sets task;
  target_truncation := target_truncation task;
  truncation_parameters := truncation_parameters task;
  sp_truncation_mode := sp_truncation_mode task;
  mb_truncation_mode := mb_truncation_mode task;
  h2_format := h2_format task;
  interaction := interaction task;
  interaction_file := interaction_file task;
  coulomb_file := coulomb_file task;
  user_tbme_sources := sources;
|}.

End script.

(** ** Tactics *)

(** A decidable proposition that computes to true. *)
Ltac by_compute := apply (bool_decide_unpack _); vm_compute; exact I.

(** One step of the run of a computation in [M], once the equations of the
    monad are in the rewrite database [run]. *)
Create Rewrite HintDb run.
Ltac run_step := progress (autorewrite with run); cbv beta iota.

(** * Properties *)

(** ** The monad *)

Lemma bind_run {A B} (m : M A) (f : A → M B) (lines : list string) :
  (m ≫= f) lines
  = match m lines with
    | (Ok x, lines') => f x lines'
    | (Raise e, lines') => (Raise e, lines')
    end.
Proof. reflexivity. Qed.

Lemma append_run (line : string) (lines : list string) :
  append line lines = (Ok tt, lines ++ [line]).
Proof. reflexivity. Qed.

Lemma lift_run {A} (r : result A) (lines : list string) : lift r lines = (r, lines).
Proof. reflexivity. Qed.

#[global] Hint Rewrite @bind_run @append_run @lift_run : run.

Lemma for_each_append {A} (f : A → string) (body : A → M unit) (xs : list A)
    (lines : list string) :
  (∀ x lines, body x lines = (Ok tt, lines ++ [f x])) →
  for_each xs body lines = (Ok tt, lines ++ (f <$> xs)).
Proof.
  intros Hbody. revert lines. induction xs as [|x xs IH]; intros lines; simpl.
  - by rewrite app_nil_r.
  - rewrite bind_run, Hbody, IH. by rewrite <- app_assoc.
Qed.

Lemma for_each_blocks {A} (f : A → list string) (body : A → M unit) (xs : list A)
    (lines : list string) :
  (∀ x lines, body x lines = (Ok tt, lines ++ f x)) →
  for_each xs body lines = (Ok tt, lines ++ concat (f <$> xs)).
Proof.
  intros Hbody. revert lines. induction xs as [|x xs IH]; intros lines; simpl.
  - by rewrite app_nil_r.
  - rewrite bind_run, Hbody, IH. by rewrite <- app_assoc.
Qed.

(** ** The order of [str] *)

Lemma ascii_compare_lt_trans (a b c : Ascii.ascii) :
  Ascii.compare a b = Lt → Ascii.compare b c = Lt → Ascii.compare a c = Lt.
Proof.
  unfold Ascii.compare. rewrite !N.compare_lt_iff. lia.
Qed.

Lemma string_leb_trans (s1 s2 s3 : string) :
  String.leb s1 s2 = true → String.leb s2 s3 = true → String.leb s1 s3 = true.
Proof.
  unfold String.leb. revert s2 s3.
  induction s1 as [|a s1 IH]; intros [|b s2] [|c s3]; simpl; try done.
  destruct (Ascii.compare a b) eqn:Hab; try done;
    destruct (Ascii.compare b c) eqn:Hbc; try done.
  - apply Ascii.compare_eq_iff in Hab as ->. rewrite Hbc. apply IH.
  - apply Ascii.compare_eq_iff in Hab as ->. by rewrite Hbc.
  - apply Ascii.compare_eq_iff in Hbc as <-. by rewrite Hab.
  - by rewrite (ascii_compare_lt_trans a b c).
Qed.

Global Instance str_le_trans : Transitive str_le.
Proof. intros s1 s2 s3. apply string_leb_trans. Qed.

Global Instance str_le_antisymm : AntiSymm (=) str_le.
Proof. intros s1 s2. apply String.leb_antisym. Qed.

Global Instance str_le_total : Total str_le.
Proof. intros s1 s2. apply String.leb_total. Qed.

(** ** Ordered dictionaries *)

Section odict_properties.
Context {V : Type}.
Implicit Types (d : list (string * V)) (k : string) (v : V).

Lemma contains_keys k d : contains k d = true ↔ k ∈ keys d.
Proof.
  unfold contains, keys. induction d as [|[k' v'] d IH]; simpl.
  - split; [done | by intros ?%elem_of_nil].
  - rewrite orb_true_iff, IH, elem_of_cons, String.eqb_eq. done.
Qed.

Lemma contains_false_keys k d : contains k d = false ↔ k ∉ keys d.
Proof. rewrite <- contains_keys. by destruct (contains k d). Qed.

Lemma keys_setitem k v d :
  keys (setitem k v d) = keys d ++ (if contains k d then [] else [k]).
Proof.
  induction d as [|[k' v'] d IH]; [done|].
  unfold contains, keys in *. simpl.
  destruct (String.eqb k k') eqn:Hk; simpl.
  - apply String.eqb_eq in Hk as ->. by rewrite app_nil_r.
  - f_equal. apply IH.
Qed.

Lemma getitem_setitem_eq k v d : getitem k (setitem k v d) = Some v.
Proof.
  induction d as [|[k' v'] d IH]; simpl.
  - by rewrite String.eqb_refl.
  - destruct (String.eqb k k') eqn:Hk; simpl; [by rewrite String.eqb_refl|].
    by rewrite Hk.
Qed.

Lemma getitem_setitem_ne k k' v d :
  k ≠ k' → getitem k' (setitem k v d) = getitem k' d.
Proof.
  intros Hne. induction d as [|[k'' v''] d IH]; simpl.
  - by rewrite (proj2 (String.eqb_neq k' k)).
  - destruct (String.eqb k k'') eqn:Hk; simpl.
    + apply String.eqb_eq in Hk as <-. by rewrite (proj2 (String.eqb_neq k' k)).
    + by rewrite IH.
Qed.

Lemma getitem_is_Some k d : is_Some (getitem k d) ↔ k ∈ keys d.
Proof.
  unfold keys. induction d as [|[k' v'] d IH]; simpl.
  - split; [by intros [? [=]] | by intros ?%elem_of_nil].
  - rewrite elem_of_cons. destruct (String.eqb k k') eqn:Hk.
    + apply String.eqb_eq in Hk. split; [by left | by eexists].
    + apply String.eqb_neq in Hk. rewrite IH. split; [by right | by intros [?|?]].
Qed.

Lemma NoDup_keys_setitem k v d : NoDup (keys d) → NoDup (keys (setitem k v d)).
Proof.
  intros Hd. rewrite keys_setitem. destruct (contains k d) eqn:Hk.
  - by rewrite app_nil_r.
  - apply contains_false_keys in Hk. apply NoDup_app. split; [done|].
    split; [|apply NoDup_singleton].
    intros k' Hin ->%list_elem_of_singleton. done.
Qed.

Lemma contains_setitem_ne k k' v d :
  k ≠ k' → contains k' (setitem k v d) = contains k' d.
Proof.
  intros Hne. apply eq_true_iff_eq. rewrite !contains_keys, keys_setitem.
  destruct (contains k d); rewrite ?app_nil_r; [done|].
  rewrite elem_of_app, list_elem_of_singleton.
  split; [by intros [?|?] | by left].
Qed.

End odict_properties.

Section properties.
Context `{!python.Format, !python.SetOrder, !utils.Lib, !environ.Naming,
          !operators.Library}.

Import modes.

Lemma target_lines_run (postfix : string) (targets : Targets) (lines : list string) :
  target_lines postfix targets lines
  = (Ok tt, lines ++ concat (target_block postfix <$> targets)).
Proof.
  apply for_each_blocks. intros [basename operator] l.
  rewrite bind_run, append_run, bind_run.
  rewrite (for_each_append add_source_line) by (by intros [??] ?).
  rewrite append_run. unfold target_block. simpl. by rewrite <- !app_assoc.
Qed.

(** *** [sorted] *)

Lemma sorted_Permutation (X : gset string) : sorted X ≡ₚ elements X.
Proof.
  unfold sorted. rewrite merge_sort_Permutation. apply python.iter_elements.
Qed.

Lemma elem_of_sorted (X : gset string) (id : string) : id ∈ sorted X ↔ id ∈ X.
Proof. by rewrite sorted_Permutation, elem_of_elements. Qed.

Lemma Sorted_sorted (X : gset string) : Sorted str_le (sorted X).
Proof. apply Sorted_merge_sort, _. Qed.

(** *** The lines of the sources *)

Lemma source_loop_run (tbme_sources : gmap string TwoBodyOperatorSource)
    (ids : list string) (lines : list string) :
  for_each ids (λ id,
    match tbme_sources !! id with
    | Some source => append (operators.get_h2mixer_line source id)
    | None => raise (KeyError id)
    end) lines
  = (match (declare_sources tbme_sources ids).2 with
     | None => Ok tt
     | Some id => Raise (KeyError id)
     end,
     lines ++ (declare_sources tbme_sources ids).1).
Proof.
  revert lines. induction ids as [|id ids IH]; intros lines; simpl.
  - by rewrite app_nil_r.
  - rewrite bind_run. destruct (tbme_sources !! id) as [source|].
    + rewrite append_run, IH.
      destruct (declare_sources tbme_sources ids) as [decls missing]; simpl.
      by rewrite <- app_assoc.
    + simpl. by rewrite app_nil_r.
Qed.

Lemma source_lines_run (required : gset string)
    (tbme_sources : gmap string TwoBodyOperatorSource) (lines : list string) :
  source_lines required tbme_sources lines
  = match (declare_sources tbme_sources (sorted required)).2 with
    | None =>
        (Ok tt, lines ++ (declare_sources tbme_sources (sorted required)).1 ++ [""])
    | Some id =>
        (Raise (KeyError id), lines ++ (declare_sources tbme_sources (sorted required)).1)
    end.
Proof.
  unfold source_lines. rewrite bind_run, source_loop_run.
  destruct (declare_sources tbme_sources (sorted required)).2; [done|].
  by rewrite append_run, <- app_assoc.
Qed.

Lemma declare_sources_missing (tbme_sources : gmap string TwoBodyOperatorSource)
    (ids : list string) (id : string) :
  (declare_sources tbme_sources ids).2 = Some id →
  id ∈ ids ∧ tbme_sources !! id = None.
Proof.
  induction ids as [|id' ids IH]; simpl; [done|].
  destruct (tbme_sources !! id') as [source|] eqn:Hid'.
  - destruct (declare_sources tbme_sources ids) as [decls missing]; simpl in *.
    intros Hm. destruct (IH Hm) as [? ?]. split; [by right | done].
  - simpl. intros [= <-]. split; [by left | done].
Qed.

Lemma declare_sources_complete (tbme_sources : gmap string TwoBodyOperatorSource)
    (ids : list string) :
  (declare_sources tbme_sources ids).2 = None →
  ∀ id, id ∈ ids → is_Some (tbme_sources !! id).
Proof.
  induction ids as [|id' ids IH]; simpl; intros Hm id Hin.
  - by apply elem_of_nil in Hin.
  - destruct (tbme_sources !! id') as [source|] eqn:Hid'; [|done].
    destruct (declare_sources tbme_sources ids) as [decls missing]; simpl in *.
    apply elem_of_cons in Hin as [->|Hin]; [by eexists | by apply IH].
Qed.

(** *** The run of [generate_tbme], stage by stage *)

Lemma global_modes_run (task : Task) (postfix : string) (lines : list string) :
  global_modes task postfix lines
  = match target_weight_max task with
    | Raise e => (Raise e, lines)
    | Ok target_weight_max =>
        (Ok tt, lines ++ [ set_target_indexing_line postfix target_weight_max;
                           "set-target-multipolarity 0 0 0";
                           "set-output-format " +:+ str_int (h2_format task);
                           "set-mass " +:+ str_int (get_A task);
                           "" ])
    end.
Proof.
  unfold global_modes. rewrite bind_run, lift_run.
  destruct (target_weight_max task) as [twm|e]; [|done].
  repeat run_step. by rewrite <- !app_assoc.
Qed.

Lemma radial_inputs_run (postfix : string) (lines : list string) :
  radial_inputs postfix lines
  = (Ok tt, lines ++ [
      "define-radial-operator r 1 " +:+ environ.radial_me_filename postfix "r" 1;
      "define-radial-operator r 2 " +:+ environ.radial_me_filename postfix "r" 2;
      "define-radial-operator k 1 " +:+ environ.radial_me_filename postfix "k" 1;
      "define-radial-operator k 2 " +:+ environ.radial_me_filename postfix "k" 2;
      "";
      "define-pn-overlaps " +:+ environ.radial_pn_olap_filename postfix;
      "" ]).
Proof.
  unfold radial_inputs, for_each. repeat run_step.
  unfold mret, M_ret. repeat run_step. by rewrite <- !app_assoc.
Qed.

Lemma generate_tbme_run (task : Task) (postfix : string) :
  run (generate_tbme task postfix)
  = match sanity_check task with
    | Raise e => (Raise e, [])
    | Ok _ =>
    match accumulate_targets task with
    | Raise e => (Raise e, [])
    | Ok targets =>
    match target_weight_max task with
    | Raise e => (Raise e, ["# task: " +:+ python.str_task task; ""])
    | Ok target_weight_max =>
        let required := required_sources targets in
        let decls :=
          declare_sources (resolve_sources task postfix required) (sorted required) in
        match decls.2 with
        | Some id =>
            (Raise (KeyError id), preamble task postfix target_weight_max ++ decls.1)
        | None =>
            let lines :=
              preamble task postfix target_weight_max ++ decls.1 ++ [""]
              ++ concat (target_block postfix <$> targets) ++ [""] in
            (Ok (runner postfix lines), lines)
        end
    end end end.
Proof.
  unfold run, generate_tbme. rewrite bind_run, lift_run.
  destruct (sanity_check task) as [[]|e]; [|done].
  rewrite bind_run, lift_run.
  destruct (accumulate_targets task) as [targets|e]; [|done].
  repeat run_step. rewrite global_modes_run.
  destruct (target_weight_max task) as [twm|e]; [|done].
  cbv beta iota zeta. rewrite bind_run, radial_inputs_run. cbv beta iota.
  rewrite bind_run, source_lines_run.
  destruct (declare_sources _ _).2 as [id|] eqn:Hm.
  - by rewrite <- !app_assoc.
  - rewrite bind_run, target_lines_run. repeat run_step.
    unfold get_lines, mret, M_ret, runner. cbv beta iota.
    by rewrite <- !app_assoc.
Qed.

(** *** The descriptors of the sources *)

Lemma lookup_foldl_insert_const {V} (v : V) (ids : list string) (m : gmap string V)
    (id : string) :
  foldl (λ m id', <[id' := v]> m) m ids !! id
  = if decide (id ∈ ids) then Some v else m !! id.
Proof.
  revert m. induction ids as [|id' ids IH]; intros m.
  - destruct (decide (id ∈ [])) as [Hin|]; [by apply elem_of_nil in Hin | done].
  - change (foldl (λ m id', <[id' := v]> m) (<[id' := v]> m) ids !! id
            = if decide (id ∈ id' :: ids) then Some v else m !! id).
    rewrite IH. destruct (decide (id ∈ ids)) as [Hin|Hnin].
    + rewrite decide_True; [done | by right].
    + destruct (decide (id = id')) as [->|Hne].
      * rewrite lookup_insert_eq, decide_True; [done | by left].
      * rewrite lookup_insert_ne by done.
        rewrite decide_False; [done|]. by intros [?|?]%elem_of_cons.
Qed.

Lemma lookup_foldl_insert_last {V} (before after : list (string * V)) (id : string)
    (v : V) (m : gmap string V) :
  id ∉ after.*1 →
  foldl (λ m '(id', v'), <[id' := v']> m) m (before ++ (id, v) :: after) !! id = Some v.
Proof.
  intros Hafter. rewrite foldl_app. simpl.
  generalize (foldl (λ m '(id', v'), <[id' := v']> m) m before). intros m'.
  revert m' Hafter. induction after as [|[id' v'] after IH]; intros m' Hafter; simpl.
  - apply lookup_insert_eq.
  - simpl in Hafter. apply not_elem_of_cons in Hafter as [Hne Hafter].
    rewrite insert_insert_ne by done. by apply IH.
Qed.

Lemma lookup_foldl_insert_other {V} (l : list (string * V)) (id : string)
    (m : gmap string V) :
  id ∉ l.*1 →
  foldl (λ m '(id', v'), <[id' := v']> m) m l !! id = m !! id.
Proof.
  revert m. induction l as [|[id' v'] l IH]; intros m Hnin; simpl; [done|].
  simpl in Hnin. apply not_elem_of_cons in Hnin as [Hne Hnin].
  rewrite IH by done. by rewrite lookup_insert_ne.
Qed.

Lemma lookup_foldl_insert_is_Some {V} (l : list (string * V)) (id : string)
    (m : gmap string V) :
  id ∈ l.*1 → is_Some (foldl (λ m '(id', v'), <[id' := v']> m) m l !! id).
Proof.
  revert m. induction l as [|[id' v'] l IH]; intros m Hin; simpl in *.
  - by apply elem_of_nil in Hin.
  - destruct (decide (id ∈ l.*1)) as [Hl|Hl]; [by apply IH|].
    apply elem_of_cons in Hin as [->|Hin]; [|done].
    rewrite lookup_foldl_insert_other by done. rewrite lookup_insert_eq. by eexists.
Qed.

Lemma sources_builtin_lookup (required : gset string)
    (tbme_sources : gmap string TwoBodyOperatorSource) (id : string) :
  sources_builtin required tbme_sources !! id
  = if decide (id ∈ operators.k_h2mixer_builtin_operators ∩ required)
    then Some (mkSource None None None)
    else tbme_sources !! id.
Proof.
  unfold sources_builtin. rewrite lookup_foldl_insert_const.
  destruct (decide (id ∈ operators.k_h2mixer_builtin_operators ∩ required)) as [Hin|Hin].
  - rewrite decide_True; [done | by apply elem_of_sorted].
  - rewrite decide_False; [done | by rewrite elem_of_sorted].
Qed.

Lemma sources_VNN_lookup_ne (task : Task) (postfix : string) (required : gset string)
    (tbme_sources : gmap string TwoBodyOperatorSource) (id : string) :
  id ≠ "VNN" →
  sources_VNN task postfix required tbme_sources !! id = tbme_sources !! id.
Proof.
  intros Hne. unfold sources_VNN.
  repeat case_decide; by rewrite ?lookup_insert_ne.
Qed.

Lemma sources_VNN_is_Some (task : Task) (postfix : string) (required : gset string)
    (tbme_sources : gmap string TwoBodyOperatorSource) :
  "VNN" ∈ required →
  is_Some (sources_VNN task postfix required tbme_sources !! "VNN").
Proof.
  intros Hin. unfold sources_VNN. rewrite decide_True by done.
  case_decide; rewrite lookup_insert_eq; by eexists.
Qed.

Lemma sources_VC_unscaled_lookup_ne (task : Task) (postfix : string)
    (required : gset string) (tbme_sources : gmap string TwoBodyOperatorSource)
    (id : string) :
  id ≠ "VC_unscaled" →
  sources_VC_unscaled task postfix required tbme_sources !! id = tbme_sources !! id.
Proof.
  intros Hne. unfold sources_VC_unscaled.
  repeat case_decide; by rewrite ?lookup_insert_ne.
Qed.

Lemma sources_override_lookup_other (task : Task)
    (tbme_sources : gmap string TwoBodyOperatorSource) (id : string) :
  id ∉ (default [] (user_tbme_sources task)).*1 →
  sources_override task tbme_sources !! id = tbme_sources !! id.
Proof.
  unfold sources_override. destruct (user_tbme_sources task) as [user|]; simpl; [|done].
  apply lookup_foldl_insert_other.
Qed.

Lemma sources_override_is_Some (task : Task)
    (tbme_sources : gmap string TwoBodyOperatorSource) (id : string) :
  is_Some (tbme_sources !! id) ∨ id ∈ (default [] (user_tbme_sources task)).*1 →
  is_Some (sources_override task tbme_sources !! id).
Proof.
  unfold sources_override. destruct (user_tbme_sources task) as [user|]; simpl.
  - destruct (decide (id ∈ user.*1)) as [Hin|Hnin].
    + intros _. by apply lookup_foldl_insert_is_Some.
    + intros [Hsome|?]; [|done]. by rewrite lookup_foldl_insert_other.
  - intros [?|Hin]; [done|]. by apply elem_of_nil in Hin.
Qed.

(** A required id is left without a descriptor exactly when no stage of the
    resolution handles it. *)
Lemma resolve_sources_None (task : Task) (postfix : string) (required : gset string)
    (id : string) :
  id ∈ required →
  resolve_sources task postfix required !! id = None ↔ unresolvable task id.
Proof.
  intros Hreq. unfold resolve_sources, unresolvable. split.
  - intros Hnone.
    assert (id ∉ (default [] (user_tbme_sources task)).*1) as Huser.
    { intros Hin. eapply is_Some_None. rewrite <- Hnone.
      apply sources_override_is_Some. by right. }
    rewrite sources_override_lookup_other in Hnone by done.
    unfold default_sources in Hnone.
    assert (id ≠ "VC_unscaled") as HVC.
    { intros ->. unfold sources_VC_unscaled in Hnone.
      rewrite decide_True in Hnone by done.
      case_decide; by rewrite lookup_insert_eq in Hnone. }
    rewrite sources_VC_unscaled_lookup_ne in Hnone by done.
    assert (id ≠ "VNN") as HVNN.
    { intros ->. eapply is_Some_None. rewrite <- Hnone.
      by apply sources_VNN_is_Some. }
    rewrite sources_VNN_lookup_ne, sources_builtin_lookup in Hnone by done.
    case_decide as Hb; [done|]. repeat split; try done.
    intros Hin. apply Hb. by apply elem_of_intersection.
  - intros (Hb & HVNN & HVC & Huser).
    rewrite sources_override_lookup_other by done. unfold default_sources.
    rewrite sources_VC_unscaled_lookup_ne, sources_VNN_lookup_ne by done.
    rewrite sources_builtin_lookup, decide_False; [done|].
    intros [? _]%elem_of_intersection. done.
Qed.

(** C6: when VC_unscaled is required, its default descriptor carries the
    Coulomb file; in the direct and dilated basis modes it has no
    transformation file and no transformation truncation, and it has both
    exactly in the general basis mode. *)
Theorem VC_unscaled_default_descriptor (task : Task) (postfix : string)
    (required : gset string) :
  "VC_unscaled" ∈ required →
  ∃ source,
    default_sources task postfix required !! "VC_unscaled" = Some source
    ∧ filename source
      = Some (default (environ.interaction_filename "VC" (truncation_coul task)
                         (hw_coul task))
                      (coulomb_file task))
    ∧ (basis_mode task = BasisMode.kDirect ∨ basis_mode task = BasisMode.kDilated →
       xform_filename source = None ∧ xform_truncation source = None)
    ∧ (basis_mode task = BasisMode.kGeneric →
       xform_filename source = Some (environ.radial_olap_coul_filename postfix)
       ∧ xform_truncation source = Some (get_xform_truncation_coul task))
    ∧ (is_Some (xform_filename source) ↔ basis_mode task = BasisMode.kGeneric)
    ∧ (is_Some (xform_truncation source) ↔ basis_mode task = BasisMode.kGeneric)
    ∧ ("VC_unscaled" ∉ (default [] (user_tbme_sources task)).*1 →
       resolve_sources task postfix required !! "VC_unscaled" = Some source).
Proof.
  intros Hreq. unfold resolve_sources.
  cut (∃ source,
         default_sources task postfix required !! "VC_unscaled" = Some source
         ∧ filename source
           = Some (default (environ.interaction_filename "VC" (truncation_coul task)
                              (hw_coul task))
                           (coulomb_file task))
         ∧ (basis_mode task = BasisMode.kDirect ∨ basis_mode task = BasisMode.kDilated →
            xform_filename source = None ∧ xform_truncation source = None)
         ∧ (basis_mode task = BasisMode.kGeneric →
            xform_filename source = Some (environ.radial_olap_coul_filename postfix)
            ∧ xform_truncation source = Some (get_xform_truncation_coul task))
         ∧ (is_Some (xform_filename source) ↔ basis_mode task = BasisMode.kGeneric)
         ∧ (is_Some (xform_truncation source) ↔ basis_mode task = BasisMode.kGeneric)).
  { intros (source & Hlookup & Hfile & Hplain & Hgeneric & Hxf & Hxt). exists source.
    split; [done|]. split; [done|]. split; [done|]. split; [done|].
    split; [done|]. split; [done|].
    intros Huser. by rewrite sources_override_lookup_other. }
  unfold default_sources, sources_VC_unscaled.
  rewrite decide_True by done.
  assert (match coulomb_file task with
          | Some VC_filename => VC_filename
          | None => environ.interaction_filename "VC" (truncation_coul task) (hw_coul task)
          end
          = default (environ.interaction_filename "VC" (truncation_coul task) (hw_coul task))
                    (coulomb_file task)) as -> by (by destruct (coulomb_file task)).
  case_decide as Hmode; rewrite lookup_insert_eq; eexists; (split; [done|]); simpl.
  - assert (basis_mode task ≠ BasisMode.kGeneric) as Hne.
    { intros Heq. rewrite Heq in Hmode.
      apply elem_of_cons in Hmode as [?|Hmode]; [done|].
      apply elem_of_cons in Hmode as [?|Hmode]; [done|].
      by apply elem_of_nil in Hmode. }
    split; [done|]. split; [done|]. split; [done|].
    split; (split; [by intros [? [=]] | done]).
  - assert (basis_mode task = BasisMode.kGeneric) as Heq.
    { destruct (basis_mode task); [| |done]; exfalso; apply Hmode.
      - by left.
      - right. by left. }
    split; [done|]. split; [intros [?|?]; congruence|]. split; [done|].
    split; (split; [done | by eexists]).
Qed.

(** C7: the defaults are computed for the required ids, then the user's
    sources are assigned by id in their order; the descriptor of an id that
    the user supplies is the user's (the last one supplied for that id), and
    the id of no user source keeps its default. *)
Theorem user_source_replaces_default (task : Task) (postfix : string)
    (required : gset string) (before after : list (string * TwoBodyOperatorSource))
    (id : string) (source : TwoBodyOperatorSource) :
  user_tbme_sources task = Some (before ++ (id, source) :: after) →
  id ∉ after.*1 →
  resolve_sources task postfix required
  = foldl (λ tbme_sources '(id, source), <[id := source]> tbme_sources)
          (default_sources task postfix required) (before ++ (id, source) :: after)
  ∧ resolve_sources task postfix required !! id = Some source
  ∧ (∀ id', id' ∉ (before ++ (id, source) :: after).*1 →
       resolve_sources task postfix required !! id'
       = default_sources task postfix required !! id').
Proof.
  intros Huser Hlast. unfold resolve_sources, sources_override. rewrite Huser.
  split; [done|]. split.
  - by apply lookup_foldl_insert_last.
  - intros id' Hnin. by apply lookup_foldl_insert_other.
Qed.

(** C3: a required source id that is no built-in of the mixer, is neither
    VNN nor VC_unscaled and has no user source makes the generation of the
    source lines raise KeyError on such an id, and so the run of
    [generate_tbme] ends in an exception. *)
Theorem unresolvable_source_raises (task : Task) (postfix : string) (targets : Targets)
    (id : string) :
  accumulate_targets task = Ok targets →
  id ∈ required_sources targets →
  unresolvable task id →
  ∃ id',
    id' ∈ required_sources targets ∧ unresolvable task id'
    ∧ (∀ lines, ∃ lines',
         source_lines (required_sources targets)
           (resolve_sources task postfix (required_sources targets)) lines
         = (Raise (KeyError id'), lines'))
    ∧ (∀ target_weight_max',
         sanity_check task = Ok tt →
         target_weight_max task = Ok target_weight_max' →
         ∃ lines, run (generate_tbme task postfix) = (Raise (KeyError id'), lines))
    ∧ (∃ e lines, run (generate_tbme task postfix) = (Raise e, lines)).
Proof.
  intros Htargets Hreq Hun.
  set (required := required_sources targets) in *.
  destruct (declare_sources (resolve_sources task postfix required) (sorted required)).2
    as [id'|] eqn:Hmiss.
  - destruct (declare_sources_missing _ _ _ Hmiss) as [Hin Hnone].
    apply elem_of_sorted in Hin. exists id'.
    split; [done|]. split; [by apply (resolve_sources_None task postfix required)|].
    split; [|split].
    + intros lines. rewrite source_lines_run, Hmiss. by eexists.
    + intros twm Hsane Htwm. rewrite generate_tbme_run, Hsane, Htargets, Htwm.
      cbv zeta. fold required. rewrite Hmiss. by eexists.
    + rewrite generate_tbme_run, Htargets.
      destruct (sanity_check task) as [[]|e]; [|by eexists _, _].
      destruct (target_weight_max task) as [twm|e]; [|by eexists _, _].
      cbv zeta. fold required. rewrite Hmiss. by eexists _, _.
  - exfalso. eapply is_Some_None.
    rewrite <- (proj2 (resolve_sources_None task postfix required id Hreq) Hun).
    eapply declare_sources_complete; [done|]. by apply elem_of_sorted.
Qed.

(** *** The accumulation of the targets *)

Lemma keys_setitem_prefix {V} (k : string) (v : V) (d : list (string * V)) :
  keys d `prefix_of` keys (setitem k v d).
Proof. rewrite keys_setitem. by apply prefix_app_r. Qed.

Lemma keeps_derived_refl (d : Targets) : keeps_derived d d.
Proof. by repeat split. Qed.

Lemma keeps_derived_trans (d1 d2 d3 : Targets) :
  keeps_derived d1 d2 → keeps_derived d2 d3 → keeps_derived d1 d3.
Proof.
  intros (Hp1 & Hn1 & Hr1 & Hc1) (Hp2 & Hn2 & Hr2 & Hc2). repeat split.
  - by etrans.
  - auto.
  - by rewrite Hr2.
  - by rewrite Hc2.
Qed.

Lemma keeps_derived_setitem (k : string) (op : Operator) (d : Targets) :
  k ≠ "tbme-rrel2" → k ≠ "tbme-Ncm" → keeps_derived d (setitem k op d).
Proof.
  intros Hr Hc. repeat split.
  - apply keys_setitem_prefix.
  - apply NoDup_keys_setitem.
  - by apply getitem_setitem_ne.
  - by apply getitem_setitem_ne.
Qed.

Lemma target_H_components_keeps (task : Task) (d d' : Targets) :
  target_H_components task d = Ok d' → keeps_derived d d'.
Proof.
  unfold target_H_components. case_bool_decide.
  - assert (keeps_derived d
      (setitem "tbme-VNN" operators.VNN
         (setitem "tbme-Tcm" (operators.Tcm (get_A task) (hw task))
            (setitem "tbme-Trel" (operators.Trel (get_A task) (hw task)) d)))) as Hk.
    { eapply keeps_derived_trans; [|by apply keeps_derived_setitem].
      eapply keeps_derived_trans; by apply keeps_derived_setitem. }
    destruct (use_coulomb task).
    + destruct (truediv _ _) as [bsqr_coul|e]; cbn; [|done].
      intros [= <-]. eapply keeps_derived_trans; [exact Hk|].
      by apply keeps_derived_setitem.
    + by intros [= <-].
  - intros [= <-]. apply keeps_derived_refl.
Qed.

Lemma target_am_sqr_keeps (task : Task) (d : Targets) :
  keeps_derived d (target_am_sqr task d).
Proof.
  unfold target_am_sqr. case_bool_decide; [|apply keeps_derived_refl].
  repeat (eapply keeps_derived_trans; [|by apply keeps_derived_setitem]).
  apply keeps_derived_refl.
Qed.

Lemma target_isospin_keeps (task : Task) (d : Targets) :
  keeps_derived d (target_isospin task d).
Proof.
  unfold target_isospin. case_bool_decide; [|apply keeps_derived_refl].
  by apply keeps_derived_setitem.
Qed.

Lemma NoDup_keys_target_observables (task : Task) (d : Targets) :
  NoDup (keys d) → NoDup (keys (target_observables task d)).
Proof.
  unfold target_observables. destruct (truthy (tb_observables task)); [|done].
  generalize (default [] (tb_observables task)). intros obs. revert d.
  induction obs as [|[basename operator] obs IH]; intros d Hd; simpl; [done|].
  by apply IH, NoDup_keys_setitem.
Qed.

Lemma getitem_observables_other (obs : list (string * Operator)) (d : Targets)
    (basename : string) :
  basename ∉ obs.*1 →
  getitem ("tbme-" +:+ basename)
    (foldl (λ targets '(basename, operator),
              setitem ("tbme-" +:+ basename) (operators.TwoBodyOperator operator) targets)
           d obs)
  = getitem ("tbme-" +:+ basename) d.
Proof.
  revert d. induction obs as [|[basename' operator'] obs IH]; intros d Hnin; [done|].
  simpl in Hnin. apply not_elem_of_cons in Hnin as [Hne Hnin].
  simpl. rewrite IH by done. apply getitem_setitem_ne.
  intros Heq. apply Hne. by simplify_eq/=.
Qed.

Lemma target_observables_lookup (task : Task) (d : Targets)
    (before after : list (string * Operator)) (basename : string) (operator : Operator) :
  tb_observables task = Some (before ++ (basename, operator) :: after) →
  basename ∉ after.*1 →
  getitem ("tbme-" +:+ basename) (target_observables task d)
  = Some (operators.TwoBodyOperator operator).
Proof.
  intros Hobs Hlast. unfold target_observables. rewrite Hobs.
  assert (truthy (Some (before ++ (basename, operator) :: after)) = true) as ->
    by (by destruct before).
  simpl. rewrite foldl_app. simpl.
  rewrite (getitem_observables_other after _ basename Hlast).
  apply getitem_setitem_eq.
Qed.

Lemma target_hamiltonian_keys (task : Task) (d : Targets) :
  target_hamiltonian task [] = Ok d → keys d = ["tbme-H"].
Proof.
  unfold target_hamiltonian. destruct (truthy (hamiltonian task)).
  - by intros [= <-].
  - destruct (truediv (hw task) (get_hw_cm task)) as [bsqr_intr|e]; cbn; [|done].
    destruct (truediv _ _) as [bsqr_coul|e]; cbn; [|done].
    by intros [= <-].
Qed.

Lemma accumulate_targets_stages (task : Task) (targets : Targets) :
  accumulate_targets task = Ok targets →
  ∃ T0 T3,
    target_hamiltonian task [] = Ok T0
    ∧ target_Ncm task (target_rrel2 task (target_observables task T0)) = Ok T3
    ∧ keeps_derived T3 targets.
Proof.
  unfold accumulate_targets.
  destruct (target_hamiltonian task []) as [T0|e]; cbn; [|done].
  destruct (target_Ncm task _) as [T3|e] eqn:HT3; cbn; [|done].
  destruct (target_H_components task T3) as [T4|e] eqn:HT4; cbn; [|done].
  intros [= <-]. exists T0, T3. split; [done|]. split; [done|].
  eapply keeps_derived_trans; [by eapply target_H_components_keeps|].
  eapply keeps_derived_trans; [apply target_am_sqr_keeps | apply target_isospin_keeps].
Qed.

Lemma guarded_targets (task : Task) (d T3 : Targets) :
  target_Ncm task (target_rrel2 task d) = Ok T3 →
  keys d `prefix_of` keys T3
  ∧ (NoDup (keys d) → NoDup (keys T3))
  ∧ getitem "tbme-rrel2" T3
    = (if contains "tbme-rrel2" d then getitem "tbme-rrel2" d
       else Some (operators.rrel2 (get_A task) (hw task)))
  ∧ (if contains "tbme-Ncm" d then getitem "tbme-Ncm" T3 = getitem "tbme-Ncm" d
     else ∃ bsqr, truediv (hw task) (get_hw_cm task) = Ok bsqr
                  ∧ getitem "tbme-Ncm" T3 = Some (operators.Ncm (get_A task) bsqr)).
Proof.
  unfold target_Ncm, target_rrel2.
  destruct (contains "tbme-rrel2" d) eqn:Hcr; simpl.
  - destruct (contains "tbme-Ncm" d) eqn:Hcc; simpl.
    + by intros [= <-].
    + destruct (truediv _ _) as [bsqr|e]; cbn; [|done]. intros [= <-].
      split; [apply keys_setitem_prefix|]. split; [by apply NoDup_keys_setitem|].
      split; [by apply getitem_setitem_ne|].
      exists bsqr. split; [done|]. apply getitem_setitem_eq.
  - rewrite contains_setitem_ne by done.
    destruct (contains "tbme-Ncm" d) eqn:Hcc; simpl.
    + intros [= <-].
      split; [apply keys_setitem_prefix|]. split; [by apply NoDup_keys_setitem|].
      split; [apply getitem_setitem_eq|]. by apply getitem_setitem_ne.
    + destruct (truediv _ _) as [bsqr|e]; cbn; [|done]. intros [= <-].
      split; [etrans; apply keys_setitem_prefix|].
      split; [intros; by do 2 apply NoDup_keys_setitem|].
      split; [rewrite getitem_setitem_ne by done; apply getitem_setitem_eq|].
      exists bsqr. split; [done|]. apply getitem_setitem_eq.
Qed.

(** C10: tbme-rrel2 and tbme-Ncm are added (after the targets accumulated so
    far) only when the key is absent; a tb_observable named rrel2 or Ncm
    stays the operator of that key, at the position where the observables
    put it. *)
Theorem derived_targets_only_when_absent (task : Task) (targets : Targets) :
  accumulate_targets task = Ok targets →
  ∃ T0 rest,
    target_hamiltonian task [] = Ok T0
    ∧ keys targets = keys (target_observables task T0) ++ rest
    ∧ NoDup (keys targets)
    ∧ (∀ k, k = "tbme-rrel2" ∨ k = "tbme-Ncm" →
         if contains k (target_observables task T0)
         then getitem k targets = getitem k (target_observables task T0) ∧ k ∉ rest
         else k ∈ rest)
    ∧ (contains "tbme-rrel2" (target_observables task T0) = false →
       getitem "tbme-rrel2" targets = Some (operators.rrel2 (get_A task) (hw task)))
    ∧ (contains "tbme-Ncm" (target_observables task T0) = false →
       ∃ bsqr, truediv (hw task) (get_hw_cm task) = Ok bsqr
               ∧ getitem "tbme-Ncm" targets = Some (operators.Ncm (get_A task) bsqr))
    ∧ (∀ before basename operator after,
         tb_observables task = Some (before ++ (basename, operator) :: after) →
         basename ∉ after.*1 →
         basename = "rrel2" ∨ basename = "Ncm" →
         getitem ("tbme-" +:+ basename) targets
         = Some (operators.TwoBodyOperator operator)
         ∧ "tbme-" +:+ basename ∈ keys (target_observables task T0)
         ∧ "tbme-" +:+ basename ∉ rest).
Proof.
  intros Hacc.
  destruct (accumulate_targets_stages task targets Hacc)
    as (T0 & T3 & HT0 & HT3 & Hp & Hn & Hr & Hc).
  set (T1 := target_observables task T0) in *.
  assert (NoDup (keys T1)) as HT1.
  { apply NoDup_keys_target_observables.
    rewrite (target_hamiltonian_keys task T0 HT0). apply NoDup_singleton. }
  destruct (guarded_targets task T1 T3 HT3) as (Hp3 & Hn3 & Hr3 & Hc3).
  assert (keys T1 `prefix_of` keys targets) as [rest Hrest] by (by etrans).
  assert (NoDup (keys targets)) as Hnodup by auto.
  assert (∀ k, k ∈ keys T1 → k ∉ rest) as Hfresh.
  { intros k Hk Hin. rewrite Hrest in Hnodup.
    apply NoDup_app in Hnodup as (_ & Hdisj & _). by apply (Hdisj k). }
  assert (∀ k, is_Some (getitem k targets) → k ∉ keys T1 → k ∈ rest) as Hnew.
  { intros k Hk Hnin. apply getitem_is_Some in Hk. rewrite Hrest in Hk.
    by apply elem_of_app in Hk as [?|?]. }
  exists T0, rest. fold T1.
  split; [done|]. split; [done|]. split; [done|]. split; [|split; [|split]].
  - intros k [->| ->].
    + destruct (contains "tbme-rrel2" T1) eqn:Hcr.
      * rewrite Hr, Hr3. split; [done|]. by apply Hfresh, contains_keys.
      * apply Hnew; [|by apply contains_false_keys]. rewrite Hr, Hr3. by eexists.
    + destruct (contains "tbme-Ncm" T1) eqn:Hcc.
      * rewrite Hc, Hc3. split; [done|]. by apply Hfresh, contains_keys.
      * apply Hnew; [|by apply contains_false_keys].
        destruct Hc3 as (bsqr & _ & Hget). rewrite Hc, Hget. by eexists.
  - intros Hcr. rewrite Hcr in Hr3. by rewrite Hr, Hr3.
  - intros Hcc. rewrite Hcc in Hc3. destruct Hc3 as (bsqr & Hdiv & Hget).
    exists bsqr. split; [done|]. by rewrite Hc.
  - intros before basename operator after Hobs Hlast Hname.
    pose proof (target_observables_lookup task T0 before after basename operator
                  Hobs Hlast) as Hget. fold T1 in Hget.
    assert ("tbme-" +:+ basename ∈ keys T1) as Hin.
    { apply getitem_is_Some. rewrite Hget. by eexists. }
    split; [|split; [done | by apply Hfresh]].
    apply contains_keys in Hin.
    destruct Hname as [-> | ->].
    + change ("tbme-" +:+ "rrel2") with "tbme-rrel2" in *.
      rewrite Hin in Hr3. by rewrite Hr, Hr3.
    + change ("tbme-" +:+ "Ncm") with "tbme-Ncm" in *.
      rewrite Hin in Hc3. by rewrite Hc, Hc3.
Qed.

(** *** The sanity check on hw *)

(** C8: with basis mode direct and hw != hw_int, [generate_tbme] raises a
    ScriptError while [lines] is still empty (no line has been produced), and
    the message carries the basis mode, hw and hw_int. *)
Theorem direct_basis_hw_mismatch_raises (task : Task) (postfix : string) :
  basis_mode task = BasisMode.kDirect →
  float_ne (hw task) (hw_int task) = true →
  run (generate_tbme task postfix)
  = (Raise (ScriptError
       ("Using basis mode " +:+ python.str_BasisMode (basis_mode task)
        +:+ " but hw = " +:+ python.str_float (hw task)
        +:+ " and hw_int = " +:+ python.str_float (hw_int task))),
     []).
Proof.
  intros Hmode Hne. rewrite generate_tbme_run. unfold sanity_check.
  rewrite Hne, bool_decide_eq_true_2 by done. done.
Qed.

(** *** The truncation of the target indexing *)

Lemma getparam_Some (truncation_parameters : gmap string Z) (key : string) (v : Z) :
  truncation_parameters !! key = Some v → getparam truncation_parameters key = Ok v.
Proof. unfold getparam. by intros ->. Qed.

(** C1: without an explicit target_truncation, the bound handed to
    [weight_max_string] is, for the modes (Nmax, Nmax), the pair
    (Nv + Nmax, 2 Nv + Nmax); for (Nmax, FCI), ("ob", Nmax); for
    (weight-based, FCI), ("ob", sp_weight_max); for (weight-based,
    weight-based), (sp_weight_max, min(mb_weight_max, 2 sp_weight_max)). *)
Theorem target_weight_max_documented (task : Task) :
  target_truncation task = None →
  (∀ Nv Nmax,
     sp_truncation_mode task = SingleParticleTruncationMode.kNmax →
     mb_truncation_mode task = ManyBodyTruncationMode.kNmax →
     truncation_parameters task !! "Nv" = Some Nv →
     truncation_parameters task !! "Nmax" = Some Nmax →
     target_weight_max task
     = Ok (utils.weight_max_string [PyInt (Nv + Nmax); PyInt (2 * Nv + Nmax)]))
  ∧ (∀ Nmax,
     sp_truncation_mode task = SingleParticleTruncationMode.kNmax →
     mb_truncation_mode task = ManyBodyTruncationMode.kFCI →
     truncation_parameters task !! "Nmax" = Some Nmax →
     target_weight_max task = Ok (utils.weight_max_string [PyStr "ob"; PyInt Nmax]))
  ∧ (∀ sp_weight_max,
     sp_truncation_mode task = SingleParticleTruncationMode.kTriangular →
     mb_truncation_mode task = ManyBodyTruncationMode.kFCI →
     truncation_parameters task !! "sp_weight_max" = Some sp_weight_max →
     target_weight_max task
     = Ok (utils.weight_max_string [PyStr "ob"; PyInt sp_weight_max]))
  ∧ (∀ sp_weight_max mb_weight_max,
     sp_truncation_mode task = SingleParticleTruncationMode.kTriangular →
     mb_truncation_mode task = ManyBodyTruncationMode.kWeightMax →
     truncation_parameters task !! "sp_weight_max" = Some sp_weight_max →
     truncation_parameters task !! "mb_weight_max" = Some mb_weight_max →
     target_weight_max task
     = Ok (utils.weight_max_string
             [PyInt sp_weight_max; PyInt (Z.min mb_weight_max (2 * sp_weight_max))])).
Proof.
  intros Hauto. unfold target_weight_max. rewrite Hauto.
  repeat split; intros.
  - rewrite !decide_True by done.
    by rewrite !(getparam_Some _ "Nv" Nv), !(getparam_Some _ "Nmax" Nmax).
  - rewrite decide_True, decide_False, decide_True by congruence.
    by rewrite (getparam_Some _ "Nmax" Nmax).
  - rewrite decide_False, decide_True by congruence.
    by rewrite (getparam_Some _ "sp_weight_max" sp_weight_max).
  - rewrite !decide_False by congruence.
    by rewrite !(getparam_Some _ "sp_weight_max" sp_weight_max),
               !(getparam_Some _ "mb_weight_max" mb_weight_max).
Qed.

(** The single-particle Nmax branch rejects a many-body mode other than Nmax
    and FCI. *)
Lemma target_weight_max_Nmax_invalid (task : Task) :
  target_truncation task = None →
  sp_truncation_mode task = SingleParticleTruncationMode.kNmax →
  mb_truncation_mode task = ManyBodyTruncationMode.kWeightMax →
  target_weight_max task
  = Raise (ScriptError
             ("invalid mb_truncation_mode "
              +:+ python.str_ManyBodyTruncationMode (mb_truncation_mode task))).
Proof.
  intros Hauto Hsp Hmb. unfold target_weight_max. rewrite Hauto.
  by rewrite decide_True, !decide_False by congruence.
Qed.

(** The other branch has no such check: every many-body mode but FCI takes
    the weight-based formula. *)
Lemma target_weight_max_catch_all (task : Task) (sp_weight_max mb_weight_max : Z) :
  target_truncation task = None →
  sp_truncation_mode task ≠ SingleParticleTruncationMode.kNmax →
  mb_truncation_mode task ≠ ManyBodyTruncationMode.kFCI →
  truncation_parameters task !! "sp_weight_max" = Some sp_weight_max →
  truncation_parameters task !! "mb_weight_max" = Some mb_weight_max →
  target_weight_max task
  = Ok (utils.weight_max_string
          [PyInt sp_weight_max; PyInt (Z.min mb_weight_max (2 * sp_weight_max))]).
Proof.
  intros Hauto Hsp Hmb Hw1 Hw2. unfold target_weight_max. rewrite Hauto.
  rewrite !decide_False by done.
  by rewrite !(getparam_Some _ "sp_weight_max" sp_weight_max),
             !(getparam_Some _ "mb_weight_max" mb_weight_max).
Qed.

(** C2, at the task [sample.task_weight_Nmax]: the pair (weight-based, Nmax)
    is none of the four documented pairs, there is no explicit
    target_truncation, and the derivation returns the bound (2, 4) where
    the claim requires a ScriptError. *)
Theorem target_weight_max_undocumented_pair :
  target_truncation sample.task_weight_Nmax = None
  ∧ sp_truncation_mode sample.task_weight_Nmax = SingleParticleTruncationMode.kTriangular
  ∧ mb_truncation_mode sample.task_weight_Nmax = ManyBodyTruncationMode.kNmax
  ∧ target_weight_max sample.task_weight_Nmax
    = Ok (utils.weight_max_string [PyInt 2; PyInt 4]).
Proof.
  split; [done|]. split; [done|]. split; [done|].
  by rewrite (target_weight_max_catch_all sample.task_weight_Nmax 2 4).
Qed.

(** C5: an explicit target_truncation is handed to [weight_max_string] as it
    is, whatever the truncation modes and the truncation parameters of the
    task (the derivation from them is not entered), and when the run reaches
    the global mode definitions its third line is the set-target-indexing
    line with that text. *)
Theorem explicit_target_truncation_verbatim (task : Task) (postfix : string)
    (truncation : tuple) :
  target_truncation task = Some truncation →
  target_weight_max task = Ok (utils.weight_max_string truncation)
  ∧ (∀ sp mb parameters,
       target_weight_max (with_truncation sp mb parameters task)
       = Ok (utils.weight_max_string truncation))
  ∧ (∀ targets,
       sanity_check task = Ok tt →
       accumulate_targets task = Ok targets →
       (run (generate_tbme task postfix)).2 !! 2%nat
       = Some ("set-target-indexing " +:+ environ.orbitals_filename postfix
               +:+ " " +:+ utils.weight_max_string truncation)).
Proof.
  intros Hgiven.
  assert (target_weight_max task = Ok (utils.weight_max_string truncation)) as Htwm.
  { unfold target_weight_max. by rewrite Hgiven. }
  split; [done|]. split.
  - intros sp mb parameters. unfold target_weight_max. simpl. by rewrite Hgiven.
  - intros targets Hsane Htargets.
    rewrite generate_tbme_run, Hsane, Htargets, Htwm. cbv zeta.
    by destruct (declare_sources _ _).2.
Qed.

(** *** The blocks of the targets *)

(** C4, as the code has it: a script that is completed ends with one block
    per target, in the order of the targets, and a last empty line; a block
    is the define-target line, one add-source line for each term of the
    operator in the order of its mapping, whatever the coefficient, and an
    empty line. *)
Theorem script_target_blocks (task : Task) (postfix : string) (actions : list action)
    (lines : list string) :
  run (generate_tbme task postfix) = (Ok actions, lines) →
  ∃ targets target_weight_max' decls,
    accumulate_targets task = Ok targets
    ∧ target_weight_max task = Ok target_weight_max'
    ∧ declare_sources
        (resolve_sources task postfix (required_sources targets))
        (sorted (required_sources targets))
      = (decls, None)
    ∧ lines
      = (preamble task postfix target_weight_max' ++ decls ++ [""])
        ++ concat (target_block postfix <$> targets) ++ [""]
    ∧ (∀ basename operator,
         target_block postfix (basename, operator)
         = [ "define-target work" +:+ postfix +:+ "/" +:+ basename +:+ ".bin" ]
           ++ ((λ term : string * float,
                  "  add-source " +:+ term.1 +:+ " " +:+ python.format_e term.2)
               <$> operator)
           ++ [""]).
Proof.
  rewrite generate_tbme_run.
  destruct (sanity_check task) as [[]|e]; [|done].
  destruct (accumulate_targets task) as [targets|e]; [|done].
  destruct (target_weight_max task) as [twm|e]; [|done].
  cbv zeta.
  destruct (declare_sources _ _) as [decls [id|]] eqn:Hdecls; simpl; [done|].
  intros [= _ <-]. exists targets, twm, decls.
  split; [done|]. split; [done|]. split; [done|].
  split; [by rewrite <- !app_assoc | done].
Qed.

End properties.

(** ** Determinism *)

Section determinism.
Context `{!python.Format, !utils.Lib, !environ.Naming, !operators.Library}.

Lemma sorted_order_independent (order1 order2 : python.SetOrder) (X : gset string) :
  @sorted order1 X = @sorted order2 X.
Proof.
  apply (Sorted_unique str_le); [apply Sorted_sorted.. |].
  by rewrite !sorted_Permutation.
Qed.

Lemma resolve_sources_order_independent (order1 order2 : python.SetOrder)
    (task : Task) (postfix : string) (required : gset string) :
  @resolve_sources order1 _ _ task postfix required
  = @resolve_sources order2 _ _ task postfix required.
Proof.
  unfold resolve_sources, default_sources, sources_builtin.
  by rewrite (sorted_order_independent order1 order2).
Qed.

(** C9: the outcome and the lines of a run are a function of the task and
    the postfix (with the collaborators fixed): they are the same for any two
    orders in which the sets of source ids may be iterated, the one thing
    that varies from a run of the interpreter to the next.  No clock is
    read: the lines are built from the task, the postfix and the
    collaborators alone. *)
Theorem generate_tbme_deterministic (order1 order2 : python.SetOrder) (task : Task)
    (postfix : string) :
  run (@generate_tbme _ order1 _ _ _ task postfix)
  = run (@generate_tbme _ order2 _ _ _ task postfix).
Proof.
  rewrite !generate_tbme_run.
  destruct (sanity_check task) as [[]|e]; [|done].
  destruct (accumulate_targets task) as [targets|e]; [|done].
  destruct (target_weight_max task) as [twm|e]; [|done].
  cbv zeta.
  by rewrite (resolve_sources_order_independent order1 order2),
             (sorted_order_independent order1 order2).
Qed.

End determinism.

(** ** The targets, stage by stage *)

Section targets.
Context `{!python.Format, !python.SetOrder, !utils.Lib, !environ.Naming,
          !operators.Library}.

Lemma keys_target_observables_prefix (task : Task) (d : Targets) :
  keys d `prefix_of` keys (target_observables task d).
Proof.
  unfold target_observables. destruct (truthy (tb_observables task)); [|done].
  generalize (default [] (tb_observables task)). intros obs. revert d.
  induction obs as [|[basename operator] obs IH]; intros d; simpl; [done|].
  etrans; [apply keys_setitem_prefix | apply IH].
Qed.

Lemma getitem_target_rrel2_present (task : Task) (d : Targets) (k : string) :
  is_Some (getitem k d) → getitem k (target_rrel2 task d) = getitem k d.
Proof.
  intros Hk. unfold target_rrel2.
  destruct (contains "tbme-rrel2" d) eqn:Hc; simpl; [done|].
  apply getitem_setitem_ne. intros <-.
  apply getitem_is_Some, contains_keys in Hk. congruence.
Qed.

Lemma getitem_target_Ncm_present (task : Task) (d d' : Targets) (k : string) :
  target_Ncm task d = Ok d' → is_Some (getitem k d) → getitem k d' = getitem k d.
Proof.
  unfold target_Ncm. intros Hd' Hk.
  destruct (contains "tbme-Ncm" d) eqn:Hc; simpl in Hd'.
  - by injection Hd' as <-.
  - destruct (truediv _ _) as [bsqr|e]; cbn in Hd'; [|done]. injection Hd' as <-.
    apply getitem_setitem_ne. intros <-.
    apply getitem_is_Some, contains_keys in Hk. congruence.
Qed.

Lemma getitem_target_H_components_ne (task : Task) (d d' : Targets) (k : string) :
  target_H_components task d = Ok d' →
  k ∉ ["tbme-Trel"; "tbme-Tcm"; "tbme-VNN"; "tbme-VC"] →
  getitem k d' = getitem k d.
Proof.
  unfold target_H_components. intros Hd' Hk.
  assert (k ≠ "tbme-Trel" ∧ k ≠ "tbme-Tcm" ∧ k ≠ "tbme-VNN" ∧ k ≠ "tbme-VC")
    as (? & ? & ? & ?).
  { repeat split; intros ->; apply Hk; repeat constructor. }
  case_bool_decide; [|by injection Hd' as <-].
  destruct (use_coulomb task).
  - destruct (truediv _ _) as [bsqr_coul|e]; cbn in Hd'; [|done]. injection Hd' as <-.
    by rewrite !getitem_setitem_ne.
  - injection Hd' as <-. by rewrite !getitem_setitem_ne.
Qed.

Lemma getitem_target_am_sqr_ne (task : Task) (d : Targets) (k : string) :
  k ∉ ["tbme-L2"; "tbme-Sp2"; "tbme-Sn2"; "tbme-S2"; "tbme-J2"] →
  getitem k (target_am_sqr task d) = getitem k d.
Proof.
  intros Hk. unfold target_am_sqr.
  assert (k ≠ "tbme-L2" ∧ k ≠ "tbme-Sp2" ∧ k ≠ "tbme-Sn2" ∧ k ≠ "tbme-S2"
          ∧ k ≠ "tbme-J2") as (? & ? & ? & ? & ?).
  { repeat split; intros ->; apply Hk; repeat constructor. }
  case_bool_decide; [|done]. by rewrite !getitem_setitem_ne.
Qed.

Lemma getitem_target_isospin_ne (task : Task) (d : Targets) (k : string) :
  k ≠ "tbme-T2" → getitem k (target_isospin task d) = getitem k d.
Proof.
  intros Hk. unfold target_isospin. case_bool_decide; [|done].
  by rewrite getitem_setitem_ne.
Qed.

(** The stages of [accumulate_targets], one result after the other. *)
Lemma accumulate_targets_unfold (task : Task) (targets : Targets) :
  accumulate_targets task = Ok targets →
  ∃ T0 T3 T4,
    target_hamiltonian task [] = Ok T0
    ∧ target_Ncm task (target_rrel2 task (target_observables task T0)) = Ok T3
    ∧ target_H_components task T3 = Ok T4
    ∧ targets = target_isospin task (target_am_sqr task T4).
Proof.
  unfold accumulate_targets.
  destruct (target_hamiltonian task []) as [T0|e]; cbn; [|done].
  destruct (target_Ncm task _) as [T3|e] eqn:HT3; cbn; [|done].
  destruct (target_H_components task T3) as [T4|e] eqn:HT4; cbn; [|done].
  intros [= <-]. by exists T0, T3, T4.
Qed.

(** A key that the observables leave in the targets and that no optional
    observable set assigns keeps its operator to the end. *)
Lemma getitem_after_observables (task : Task) (targets T0 : Targets) (k : string) :
  accumulate_targets task = Ok targets →
  target_hamiltonian task [] = Ok T0 →
  is_Some (getitem k (target_observables task T0)) →
  k ∉ observable_set_targets →
  getitem k targets = getitem k (target_observables task T0).
Proof.
  intros Hacc HT0 Hk Hfree.
  destruct (accumulate_targets_unfold task targets Hacc)
    as (T0' & T3 & T4 & HT0' & HT3 & HT4 & ->).
  rewrite HT0 in HT0'. injection HT0' as <-.
  unfold observable_set_targets in Hfree.
  rewrite getitem_target_isospin_ne
    by (intros ->; apply Hfree; repeat constructor).
  rewrite getitem_target_am_sqr_ne
    by (intros Hin; apply Hfree; apply list_elem_of_In;
        apply list_elem_of_In in Hin; simpl in *; tauto).
  rewrite (getitem_target_H_components_ne task T3 T4 k HT4)
    by (intros Hin; apply Hfree; apply list_elem_of_In;
        apply list_elem_of_In in Hin; simpl in *; tauto).
  rewrite (getitem_target_Ncm_present task _ T3 k HT3).
  - by apply getitem_target_rrel2_present.
  - by rewrite getitem_target_rrel2_present.
Qed.

End targets.

(** ** Further properties of the targets *)

Section target_properties.
Context `{!python.Format, !python.SetOrder, !utils.Lib, !environ.Naming,
          !operators.Library}.

Lemma truediv_Ok (a b : float) :
  (b =? 0)%float = false → truediv a b = Ok (a / b)%float.
Proof. unfold truediv. by intros ->. Qed.

Lemma truediv_Raise (a b : float) (e : exception) :
  truediv a b = Raise e → e = ZeroDivisionError ∧ (b =? 0)%float = true.
Proof. unfold truediv. destruct (b =? 0)%float; [by intros [= <-] | done]. Qed.

Lemma getitem_target_observables_other (task : Task) (d : Targets) (basename : string) :
  basename ∉ (default [] (tb_observables task)).*1 →
  getitem ("tbme-" +:+ basename) (target_observables task d)
  = getitem ("tbme-" +:+ basename) d.
Proof.
  intros Hnin. unfold target_observables.
  destruct (truthy (tb_observables task)); [|done].
  by apply getitem_observables_other.
Qed.

(** X1: the accumulated targets begin with tbme-H, hold tbme-rrel2 and
    tbme-Ncm after it, and have no key twice. *)
Theorem targets_begin_with_H (task : Task) (targets : Targets) :
  accumulate_targets task = Ok targets →
  ∃ rest,
    keys targets = "tbme-H" :: rest
    ∧ NoDup (keys targets)
    ∧ "tbme-rrel2" ∈ rest
    ∧ "tbme-Ncm" ∈ rest.
Proof.
  intros Hacc.
  destruct (accumulate_targets_stages task targets Hacc)
    as (T0 & T3 & HT0 & HT3 & Hp & Hn & Hr & Hc).
  destruct (guarded_targets task _ T3 HT3) as (Hp3 & Hn3 & Hr3 & Hc3).
  pose proof (target_hamiltonian_keys task T0 HT0) as HkT0.
  assert (keys T0 `prefix_of` keys targets) as [rest Hrest].
  { etrans; [apply keys_target_observables_prefix|]. by etrans. }
  rewrite HkT0 in Hrest. simpl in Hrest.
  assert (NoDup (keys targets)) as Hnodup.
  { apply Hn, Hn3, NoDup_keys_target_observables. rewrite HkT0. apply NoDup_singleton. }
  assert (∀ k, k ≠ "tbme-H" → is_Some (getitem k targets) → k ∈ rest) as Hin.
  { intros k Hne Hk. apply getitem_is_Some in Hk. rewrite Hrest in Hk.
    by apply elem_of_cons in Hk as [?|?]. }
  exists rest. split; [done|]. split; [done|]. split.
  - apply Hin; [done|]. rewrite Hr, Hr3.
    destruct (contains "tbme-rrel2" _) eqn:Hcr; [|by eexists].
    by apply getitem_is_Some, contains_keys.
  - apply Hin; [done|]. rewrite Hc.
    destruct (contains "tbme-Ncm" _) eqn:Hcc.
    + rewrite Hc3. by apply getitem_is_Some, contains_keys.
    + destruct Hc3 as (bsqr & _ & ->). by eexists.
Qed.

(** X2: an optional observable set that is selected assigns its targets,
    whatever was stored under these keys before (a user observable of the
    same name is replaced): H-components gives tbme-Trel, tbme-Tcm, tbme-VNN
    and, with Coulomb, tbme-VC; am-sqr gives tbme-L2, tbme-Sp2, tbme-Sn2,
    tbme-S2 and tbme-J2; isospin gives tbme-T2. *)
Theorem observable_sets_assign (task : Task) (targets : Targets) :
  accumulate_targets task = Ok targets →
  ("H-components" ∈ observable_sets task →
     getitem "tbme-Trel" targets = Some (operators.Trel (get_A task) (hw task))
     ∧ getitem "tbme-Tcm" targets = Some (operators.Tcm (get_A task) (hw task))
     ∧ getitem "tbme-VNN" targets = Some operators.VNN
     ∧ (use_coulomb task = true →
        ∃ bsqr_coul,
          truediv (get_hw_coul_rescaled task) (hw_coul task) = Ok bsqr_coul
          ∧ getitem "tbme-VC" targets = Some (operators.VC bsqr_coul)))
  ∧ ("am-sqr" ∈ observable_sets task →
     getitem "tbme-L2" targets = Some operators.L2
     ∧ getitem "tbme-Sp2" targets = Some operators.Sp2
     ∧ getitem "tbme-Sn2" targets = Some operators.Sn2
     ∧ getitem "tbme-S2" targets = Some operators.S2
     ∧ getitem "tbme-J2" targets = Some operators.J2)
  ∧ ("isospin" ∈ observable_sets task →
     getitem "tbme-T2" targets = Some operators.T2).
Proof.
  intros Hacc.
  destruct (accumulate_targets_unfold task targets Hacc)
    as (T0 & T3 & T4 & HT0 & HT3 & HT4 & ->).
  split; [|split].
  - intros Hset.
    assert (∀ k, k ∈ ["tbme-Trel"; "tbme-Tcm"; "tbme-VNN"; "tbme-VC"] →
              getitem k (target_isospin task (target_am_sqr task T4)) = getitem k T4)
      as Hlater.
    { intros k Hk. rewrite getitem_target_isospin_ne, getitem_target_am_sqr_ne; [done| |].
      - intros Hin. apply list_elem_of_In in Hk, Hin. simpl in *.
        repeat destruct Hk as [<-|Hk]; try done;
          repeat destruct Hin as [Hin|Hin]; done.
      - intros ->. apply list_elem_of_In in Hk. simpl in *.
        repeat destruct Hk as [Hk|Hk]; done. }
    rewrite !Hlater by (apply list_elem_of_In; simpl; tauto).
    revert HT4. unfold target_H_components. rewrite bool_decide_eq_true_2 by done.
    destruct (use_coulomb task).
    + destruct (truediv _ _) as [bsqr_coul|e]; cbn; [|done]. intros [= <-].
      repeat first [ rewrite getitem_setitem_eq
                   | rewrite getitem_setitem_ne by done ].
      split; [done|]. split; [done|]. split; [done|].
      intros _. by exists bsqr_coul.
    + intros [= <-].
      repeat first [ rewrite getitem_setitem_eq
                   | rewrite getitem_setitem_ne by done ].
      done.
  - intros Hset.
    rewrite !getitem_target_isospin_ne by done.
    unfold target_am_sqr. rewrite bool_decide_eq_true_2 by done.
    repeat first [ rewrite getitem_setitem_eq
                 | rewrite getitem_setitem_ne by done ].
    done.
  - intros Hset. unfold target_isospin. rewrite bool_decide_eq_true_2 by done.
    apply getitem_setitem_eq.
Qed.

(** X3: a user observable whose key no optional observable set assigns is
    a target at the end, with the operator of its last entry in
    tb_observables passed through [TwoBodyOperator]. *)
Theorem user_observable_kept (task : Task) (targets : Targets)
    (before after : list (string * Operator)) (basename : string) (operator : Operator) :
  accumulate_targets task = Ok targets →
  tb_observables task = Some (before ++ (basename, operator) :: after) →
  basename ∉ after.*1 →
  "tbme-" +:+ basename ∉ observable_set_targets →
  getitem ("tbme-" +:+ basename) targets = Some (operators.TwoBodyOperator operator).
Proof.
  intros Hacc Hobs Hlast Hfree.
  destruct (accumulate_targets_unfold task targets Hacc)
    as (T0 & T3 & T4 & HT0 & _).
  pose proof (target_observables_lookup task T0 before after basename operator
                Hobs Hlast) as Hget.
  rewrite (getitem_after_observables task targets T0 _ Hacc HT0); [done| |done].
  rewrite Hget. by eexists.
Qed.

(** X4: when no user observable is named H, the target tbme-H is the user's
    Hamiltonian as it is if the task has a non-empty one, and otherwise
    (no Hamiltonian, or an empty mapping) the Hamiltonian constructed from A,
    hw, a_cm and the two ratios hw/hw_cm and hw_coul_rescaled/hw_coul. *)
Theorem hamiltonian_target (task : Task) (targets : Targets) :
  accumulate_targets task = Ok targets →
  "H" ∉ (default [] (tb_observables task)).*1 →
  match hamiltonian task with
  | Some (term :: terms) => getitem "tbme-H" targets = Some (term :: terms)
  | _ =>
      ∃ bsqr_intr bsqr_coul,
        truediv (hw task) (get_hw_cm task) = Ok bsqr_intr
        ∧ truediv (get_hw_coul_rescaled task) (hw_coul task) = Ok bsqr_coul
        ∧ getitem "tbme-H" targets
          = Some (operators.Hamiltonian (get_A task) (hw task) (a_cm task) bsqr_intr
                    (use_coulomb task) bsqr_coul)
  end.
Proof.
  intros Hacc HnoH.
  destruct (accumulate_targets_unfold task targets Hacc)
    as (T0 & T3 & T4 & HT0 & _).
  assert (getitem "tbme-H" targets = getitem "tbme-H" T0) as ->.
  { pose proof (getitem_target_observables_other task T0 "H" HnoH) as HH.
    change ("tbme-" +:+ "H") with "tbme-H" in HH.
    rewrite (getitem_after_observables task targets T0 "tbme-H" Hacc HT0).
    - done.
    - rewrite HH. apply getitem_is_Some. rewrite (target_hamiltonian_keys task T0 HT0).
      by left.
    - intros Hin. apply list_elem_of_In in Hin. simpl in Hin.
      repeat destruct Hin as [Hin|Hin]; done. }
  revert HT0. unfold target_hamiltonian.
  assert (∀ T0 : Targets,
            (bsqr_intr ← truediv (hw task) (get_hw_cm task);
             bsqr_coul ← truediv (get_hw_coul_rescaled task) (hw_coul task);
             Ok (setitem "tbme-H"
                   (operators.Hamiltonian (get_A task) (hw task) (a_cm task) bsqr_intr
                      (use_coulomb task) bsqr_coul) [])) = Ok T0 →
            ∃ bsqr_intr bsqr_coul,
              truediv (hw task) (get_hw_cm task) = Ok bsqr_intr
              ∧ truediv (get_hw_coul_rescaled task) (hw_coul task) = Ok bsqr_coul
              ∧ getitem "tbme-H" T0
                = Some (operators.Hamiltonian (get_A task) (hw task) (a_cm task)
                          bsqr_intr (use_coulomb task) bsqr_coul)) as Hdefault.
  { intros T0'.
    destruct (truediv (hw task) (get_hw_cm task)) as [bsqr_intr|e]; cbn; [|done].
    destruct (truediv _ _) as [bsqr_coul|e]; cbn; [|done].
    intros [= <-]. by exists bsqr_intr, bsqr_coul. }
  destruct (hamiltonian task) as [[|term terms]|]; simpl; [apply Hdefault| |apply Hdefault].
  by intros [= <-].
Qed.

(** X5: the accumulation of the targets raises nothing but
    ZeroDivisionError, and only when hw_cm (hw when it is absent) or hw_coul
    is zero; when neither is zero it succeeds.  The exception ends the run
    before any line is produced. *)
Theorem accumulate_targets_raises (task : Task) :
  (∀ e, accumulate_targets task = Raise e →
        e = ZeroDivisionError
        ∧ ((get_hw_cm task =? 0)%float = true ∨ (hw_coul task =? 0)%float = true))
  ∧ ((get_hw_cm task =? 0)%float = false → (hw_coul task =? 0)%float = false →
     ∃ targets, accumulate_targets task = Ok targets)
  ∧ (∀ e postfix,
       sanity_check task = Ok tt → accumulate_targets task = Raise e →
       run (generate_tbme task postfix) = (Raise e, [])).
Proof.
  split; [|split].
  - intros e. unfold accumulate_targets, target_hamiltonian, target_Ncm,
      target_H_components.
    destruct (truthy (hamiltonian task)); cbn.
    all: repeat
      (match goal with
       | |- context [truediv ?a ?b] =>
           let H := fresh "Hdiv" in
           destruct (truediv a b) as [?|?] eqn:H; cbn;
           [|apply truediv_Raise in H as [-> ?]; intros [= <-]; by auto]
       | |- context [if ?c then _ else _] => destruct c; cbn
       end); done.
  - intros Hcm Hcoul. unfold accumulate_targets, target_hamiltonian, target_Ncm,
      target_H_components.
    rewrite !(truediv_Ok _ _ Hcm), !(truediv_Ok _ _ Hcoul).
    destruct (truthy (hamiltonian task)); cbn.
    all: repeat
      (match goal with
       | |- context [if ?c then _ else _] => destruct c; cbn
       end); by eexists.
  - intros e postfix Hsane Hacc. by rewrite generate_tbme_run, Hsane, Hacc.
Qed.

(** X6: without a (non-empty) user Hamiltonian, hw_coul = 0 makes the
    accumulation raise ZeroDivisionError whether Coulomb is used or not: the
    ratio hw_coul_rescaled/hw_coul is an argument of the Hamiltonian in
    either case. *)
Theorem hw_coul_zero_raises (task : Task) :
  truthy (hamiltonian task) = false →
  (get_hw_cm task =? 0)%float = false →
  (hw_coul task =? 0)%float = true →
  accumulate_targets task = Raise ZeroDivisionError.
Proof.
  intros Hham Hcm Hcoul. unfold accumulate_targets, target_hamiltonian.
  rewrite Hham, (truediv_Ok _ _ Hcm). cbn.
  unfold truediv at 1. by rewrite Hcoul.
Qed.

End target_properties.

(** ** Further properties of the sources and of the run *)

Section source_properties.
Context `{!python.Format, !python.SetOrder, !utils.Lib, !environ.Naming,
          !operators.Library}.

Import modes.

Lemma elem_of_required_sources (targets : Targets) (id : string) :
  id ∈ required_sources targets
  ↔ ∃ basename operator coefficient,
      (basename, operator) ∈ targets ∧ (id, coefficient) ∈ operator.
Proof.
  unfold required_sources. rewrite elem_of_union_list. split.
  - intros (X & HX & Hid).
    apply list_elem_of_fmap in HX as (operator & -> & Hop).
    apply list_elem_of_fmap in Hop as ([basename operator'] & -> & Htarget).
    apply elem_of_list_to_set in Hid. unfold keys in Hid.
    apply list_elem_of_fmap in Hid as ([id' coefficient] & -> & Hterm).
    by exists basename, operator', coefficient.
  - intros (basename & operator & coefficient & Htarget & Hterm).
    exists (list_to_set (keys operator)). split.
    + apply list_elem_of_fmap. exists operator. split; [done|].
      apply list_elem_of_fmap. by exists (basename, operator).
    + apply elem_of_list_to_set. unfold keys.
      apply list_elem_of_fmap. by exists (id, coefficient).
Qed.

Lemma NoDup_sorted (X : gset string) : NoDup (sorted X).
Proof. rewrite sorted_Permutation. apply NoDup_elements. Qed.

Lemma declare_sources_Forall2 (tbme_sources : gmap string TwoBodyOperatorSource)
    (ids : list string) :
  (declare_sources tbme_sources ids).2 = None →
  Forall2 (λ id line, ∃ source,
             tbme_sources !! id = Some source
             ∧ line = operators.get_h2mixer_line source id)
          ids (declare_sources tbme_sources ids).1.
Proof.
  induction ids as [|id ids IH]; simpl; [constructor|].
  destruct (tbme_sources !! id) as [source|] eqn:Hid; [|done].
  destruct (declare_sources tbme_sources ids) as [decls missing]; simpl in *.
  intros Hm. constructor; [by exists source | by apply IH].
Qed.

Lemma declare_sources_ext (m1 m2 : gmap string TwoBodyOperatorSource)
    (ids : list string) :
  (∀ id, id ∈ ids → m1 !! id = m2 !! id) →
  declare_sources m1 ids = declare_sources m2 ids.
Proof.
  induction ids as [|id ids IH]; intros Hagree; simpl; [done|].
  rewrite <- (Hagree id) by (by left).
  rewrite IH; [done|]. intros id' Hin. apply Hagree. by right.
Qed.

Lemma lookup_app_ordered {A} (l1 l2 : list A) (x y : A) :
  x ∈ l1 → y ∈ l2 →
  ∃ i j, (l1 ++ l2) !! i = Some x ∧ (l1 ++ l2) !! j = Some y ∧ (i < j)%nat.
Proof.
  intros [i Hi]%list_elem_of_lookup [j Hj]%list_elem_of_lookup.
  exists i, (length l1 + j)%nat. split; [by apply lookup_app_l_Some|].
  split; [by rewrite lookup_app_r, Nat.add_comm, Nat.add_sub by lia|].
  apply lookup_lt_Some in Hi. lia.
Qed.

(** X7: when VNN is required, its default descriptor carries the file given
    under interaction_file or else the file named after the interaction, its
    truncation and hw_int; in the direct basis mode it has no transformation,
    and in every other basis mode (dilated included, unlike VC_unscaled) it
    has the overlap file of the interaction and the truncation
    xform_truncation_int, which defaults to truncation_int. *)
Theorem VNN_default_descriptor (task : Task) (postfix : string) (required : gset string) :
  "VNN" ∈ required →
  ∃ source,
    default_sources task postfix required !! "VNN" = Some source
    ∧ filename source
      = Some (default (environ.interaction_filename (interaction task)
                         (truncation_int task) (hw_int task))
                      (interaction_file task))
    ∧ (basis_mode task = BasisMode.kDirect →
       xform_filename source = None ∧ xform_truncation source = None)
    ∧ (basis_mode task ≠ BasisMode.kDirect →
       xform_filename source = Some (environ.radial_olap_int_filename postfix)
       ∧ xform_truncation source
         = Some (default (truncation_int task) (xform_truncation_int task))).
Proof.
  intros Hreq. unfold default_sources.
  rewrite sources_VC_unscaled_lookup_ne by done.
  unfold sources_VNN. rewrite decide_True by done.
  assert (match interaction_file task with
          | Some VNN_filename => VNN_filename
          | None => environ.interaction_filename (interaction task)
                      (truncation_int task) (hw_int task)
          end
          = default (environ.interaction_filename (interaction task)
                       (truncation_int task) (hw_int task))
                    (interaction_file task)) as -> by (by destruct (interaction_file task)).
  assert (get_xform_truncation_int task
          = default (truncation_int task) (xform_truncation_int task)) as ->
    by (unfold get_xform_truncation_int; by destruct (xform_truncation_int task)).
  case_decide as Hmode; rewrite lookup_insert_eq; eexists; (split; [done|]); simpl.
  - split; [done|]. split; [done|]. by intros ?.
  - split; [done|]. split; [by intros ?|]. done.
Qed.

(** X8: the default descriptors exist for exactly the required ids that
    are built-ins of the mixer, VNN or VC_unscaled, and a built-in other than
    these two has the descriptor without file. *)
Theorem default_sources_domain (task : Task) (postfix : string) (required : gset string)
    (id : string) :
  (is_Some (default_sources task postfix required !! id)
   ↔ id ∈ required
     ∧ (id ∈ operators.k_h2mixer_builtin_operators ∨ id = "VNN" ∨ id = "VC_unscaled"))
  ∧ (id ∈ required → id ∈ operators.k_h2mixer_builtin_operators →
     id ≠ "VNN" → id ≠ "VC_unscaled" →
     default_sources task postfix required !! id = Some (mkSource None None None)).
Proof.
  unfold default_sources. split.
  - destruct (decide (id = "VC_unscaled")) as [->|HVC].
    { unfold sources_VC_unscaled. case_decide as Hreq.
      - split; [intros _; by auto|]. intros _.
        case_decide; rewrite lookup_insert_eq; by eexists.
      - rewrite sources_VNN_lookup_ne, sources_builtin_lookup, lookup_empty by done.
        case_decide as Hb.
        + by apply elem_of_intersection in Hb as [_ ?].
        + split; [by intros [? ?] | by intros [? _]]. }
    rewrite sources_VC_unscaled_lookup_ne by done.
    destruct (decide (id = "VNN")) as [->|HVNN].
    { unfold sources_VNN. case_decide as Hreq.
      - split; [intros _; by auto|]. intros _.
        case_decide; rewrite lookup_insert_eq; by eexists.
      - rewrite sources_builtin_lookup, lookup_empty.
        case_decide as Hb.
        + by apply elem_of_intersection in Hb as [_ ?].
        + split; [by intros [? ?] | by intros [? _]]. }
    rewrite sources_VNN_lookup_ne, sources_builtin_lookup, lookup_empty by done.
    case_decide as Hb.
    + apply elem_of_intersection in Hb as [? ?]. split; [by auto | by eexists].
    + split; [by intros [? ?]|]. intros [? [?|[?|?]]]; try done.
      exfalso. apply Hb. by apply elem_of_intersection.
  - intros Hreq Hb HVNN HVC.
    rewrite sources_VC_unscaled_lookup_ne, sources_VNN_lookup_ne by done.
    rewrite sources_builtin_lookup, decide_True; [done|].
    by apply elem_of_intersection.
Qed.

(** X9: user sources for ids that are not required change nothing in the
    source lines: appended to the user sources of the task, they leave the
    descriptors of the required ids and the outcome of the source stage as
    they were. *)
Theorem unrequired_user_source_ignored (task : Task) (postfix : string)
    (required : gset string) (extra : list (string * TwoBodyOperatorSource)) :
  (∀ id, id ∈ extra.*1 → id ∉ required) →
  (∀ id, id ∈ required →
     resolve_sources
       (with_user_sources (Some (default [] (user_tbme_sources task) ++ extra)) task)
       postfix required !! id
     = resolve_sources task postfix required !! id)
  ∧ (∀ lines,
       source_lines required
         (resolve_sources
            (with_user_sources (Some (default [] (user_tbme_sources task) ++ extra)) task)
            postfix required) lines
       = source_lines required (resolve_sources task postfix required) lines).
Proof.
  intros Hextra.
  assert (∀ id, id ∈ required →
     resolve_sources
       (with_user_sources (Some (default [] (user_tbme_sources task) ++ extra)) task)
       postfix required !! id
     = resolve_sources task postfix required !! id) as Hagree.
  { intros id Hreq. unfold resolve_sources, sources_override. simpl.
    change (default_sources (with_user_sources _ task) postfix required)
      with (default_sources task postfix required).
    rewrite foldl_app, lookup_foldl_insert_other.
    - by destruct (user_tbme_sources task).
    - intros Hin. by apply (Hextra id). }
  split; [done|]. intros lines. rewrite !source_lines_run.
  rewrite (declare_sources_ext _ (resolve_sources task postfix required)); [done|].
  intros id Hin. apply Hagree. by apply elem_of_sorted.
Qed.

(** X10: in a completed script the source declarations are one line per
    required source id, made from the descriptor resolved for the id, in
    the strictly increasing order of the ids. *)
Theorem source_declarations_sorted (task : Task) (postfix : string)
    (actions : list action) (lines : list string) :
  run (generate_tbme task postfix) = (Ok actions, lines) →
  ∃ targets target_weight_max' decls,
    accumulate_targets task = Ok targets
    ∧ target_weight_max task = Ok target_weight_max'
    ∧ lines = preamble task postfix target_weight_max' ++ decls ++ [""]
              ++ concat (target_block postfix <$> targets) ++ [""]
    ∧ Forall2 (λ id line, ∃ source,
                 resolve_sources task postfix (required_sources targets) !! id
                 = Some source
                 ∧ line = operators.get_h2mixer_line source id)
              (sorted (required_sources targets)) decls
    ∧ Sorted str_le (sorted (required_sources targets))
    ∧ NoDup (sorted (required_sources targets))
    ∧ (∀ id, id ∈ sorted (required_sources targets) ↔ id ∈ required_sources targets).
Proof.
  rewrite generate_tbme_run.
  destruct (sanity_check task) as [[]|e]; [|done].
  destruct (accumulate_targets task) as [targets|e]; [|done].
  destruct (target_weight_max task) as [twm|e]; [|done].
  cbv zeta.
  destruct (declare_sources _ _).2 as [id|] eqn:Hmiss; [done|].
  intros [= _ <-]. eexists targets, twm, _.
  split; [done|]. split; [done|]. split; [done|].
  split; [by apply declare_sources_Forall2|].
  split; [apply Sorted_sorted|]. split; [apply NoDup_sorted|].
  intros id. apply elem_of_sorted.
Qed.

(** X11: in a completed script every add-source line has its source
    declared on an earlier line: for each term of each target there is a
    descriptor resolved for the id of the term, whose declaration line
    precedes the add-source line of the term. *)
Theorem add_source_declared_before (task : Task) (postfix : string)
    (actions : list action) (lines : list string) (targets : Targets)
    (basename : string) (operator : Operator) (id : string) (coefficient : float) :
  run (generate_tbme task postfix) = (Ok actions, lines) →
  accumulate_targets task = Ok targets →
  (basename, operator) ∈ targets →
  (id, coefficient) ∈ operator →
  ∃ source i j,
    resolve_sources task postfix (required_sources targets) !! id = Some source
    ∧ lines !! i = Some (operators.get_h2mixer_line source id)
    ∧ lines !! j = Some ("  add-source " +:+ id +:+ " " +:+ python.format_e coefficient)
    ∧ (i < j)%nat.
Proof.
  intros Hrun Htargets Htarget Hterm. revert Hrun.
  rewrite generate_tbme_run, Htargets.
  destruct (sanity_check task) as [[]|e]; [|done].
  destruct (target_weight_max task) as [twm|e]; [|done].
  cbv zeta.
  destruct (declare_sources _ _).2 as [id'|] eqn:Hmiss; [done|].
  intros [= _ <-].
  assert (id ∈ sorted (required_sources targets)) as Hid.
  { apply elem_of_sorted, elem_of_required_sources. by eexists _, _, _. }
  pose proof (declare_sources_Forall2 _ _ Hmiss) as Hdecls.
  apply list_elem_of_lookup in Hid as [n Hn].
  destruct (Forall2_lookup_l _ _ _ _ _ Hdecls Hn) as (line & Hline & source & Hsrc & ->).
  exists source.
  destruct (lookup_app_ordered
              (preamble task postfix twm
               ++ (declare_sources
                     (resolve_sources task postfix (required_sources targets))
                     (sorted (required_sources targets))).1)
              ([""] ++ concat (target_block postfix <$> targets) ++ [""])
              (operators.get_h2mixer_line source id)
              ("  add-source " +:+ id +:+ " " +:+ python.format_e coefficient))
    as (i & j & Hi & Hj & Hlt).
  - apply elem_of_app. right. by eapply list_elem_of_lookup_2.
  - apply elem_of_app. right. apply elem_of_app. left.
    apply list_elem_of_In, in_concat. exists (target_block postfix (basename, operator)).
    split.
    + apply list_elem_of_In, list_elem_of_fmap. by exists (basename, operator).
    + apply list_elem_of_In. unfold target_block. simpl.
      right. apply elem_of_app. left.
      apply list_elem_of_fmap. by exists (id, coefficient).
  - exists i, j. rewrite <- app_assoc in Hi, Hj. by repeat split.
Qed.


(** X13: the truncation raises only without an explicit target_truncation,
    and then either ScriptError for the modes (Nmax, weight-based) or
    KeyError on a truncation parameter that is absent; when it raises after
    the sanity check and the targets, the run ends with the header comment
    and one empty line as its only lines. *)
Theorem target_weight_max_raises (task : Task) (e : exception) :
  target_weight_max task = Raise e →
  target_truncation task = None
  ∧ ((e = ScriptError ("invalid mb_truncation_mode "
                       +:+ python.str_ManyBodyTruncationMode (mb_truncation_mode task))
      ∧ sp_truncation_mode task = SingleParticleTruncationMode.kNmax
      ∧ mb_truncation_mode task = ManyBodyTruncationMode.kWeightMax)
     ∨ (∃ key, e = KeyError key
               ∧ truncation_parameters task !! key = None
               ∧ key ∈ ["Nv"; "Nmax"; "sp_weight_max"; "mb_weight_max"]))
  ∧ (∀ postfix targets,
       sanity_check task = Ok tt → accumulate_targets task = Ok targets →
       run (generate_tbme task postfix)
       = (Raise e, ["# task: " +:+ python.str_task task; ""])).
Proof.
  intros Hraise.
  assert (∀ key e', getparam (truncation_parameters task) key = Raise e' →
            e' = KeyError key ∧ truncation_parameters task !! key = None) as Hget.
  { intros key e'. unfold getparam.
    destruct (truncation_parameters task !! key); [done | by intros [= <-]]. }
  split; [|split].
  - unfold target_weight_max in Hraise. by destruct (target_truncation task).
  - revert Hraise. unfold target_weight_max.
    destruct (target_truncation task) as [t|]; [done|]. cbv zeta.
    repeat case_decide.
    all: repeat
      (match goal with
       | |- context [getparam ?p ?k] =>
           let H := fresh "Hp" in
           destruct (getparam p k) as [?|?] eqn:H; cbn;
           [|apply Hget in H as [-> ?]; intros [= <-]; right; eexists;
             split; [done|]; split; [done|];
             apply list_elem_of_In; simpl; tauto]
       end); try done.
    intros [= <-]. left. split; [done|]. split; [done|].
    by destruct (mb_truncation_mode task).
  - intros postfix targets Hsane Htargets.
    by rewrite generate_tbme_run, Hsane, Htargets, Hraise.
Qed.

End source_properties.

(** ** Closed instances

    The theorems at the tasks of [sample], with the hypotheses decided by
    computation. *)

Lemma direct_basis_hw_mismatch_raises_witness :
  basis_mode sample.task_hw_mismatch = modes.BasisMode.kDirect
  ∧ float_ne (hw sample.task_hw_mismatch) (hw_int sample.task_hw_mismatch) = true
  ∧ run (generate_tbme sample.task_hw_mismatch "")
    = (Raise (ScriptError
         "Using basis mode BasisMode.kDirect but hw = 20.0 and hw_int = 25.0"),
       []).
Proof.
  split; [reflexivity|]. split; [reflexivity|].
  exact (direct_basis_hw_mismatch_raises sample.task_hw_mismatch ""
           (eq_refl _) (eq_refl _)).
Defined.

Lemma target_weight_max_documented_witness :
  target_weight_max sample.task0
  = Ok (utils.weight_max_string [PyInt 2; PyInt 2])
  ∧ target_weight_max sample.task_Nmax_FCI
    = Ok (utils.weight_max_string [PyStr "ob"; PyInt 4])
  ∧ target_weight_max sample.task_weight_FCI
    = Ok (utils.weight_max_string [PyStr "ob"; PyInt 3])
  ∧ target_weight_max sample.task_weight_weight
    = Ok (utils.weight_max_string [PyInt 3; PyInt 6]).
Proof.
  split; [|split; [|split]].
  - exact (proj1 (target_weight_max_documented sample.task0 (eq_refl _))
             0 2 (eq_refl _) (eq_refl _) (eq_refl _) (eq_refl _)).
  - exact (proj1 (proj2 (target_weight_max_documented sample.task_Nmax_FCI (eq_refl _)))
             4 (eq_refl _) (eq_refl _) (eq_refl _)).
  - exact (proj1 (proj2 (proj2
             (target_weight_max_documented sample.task_weight_FCI (eq_refl _))))
             3 (eq_refl _) (eq_refl _) (eq_refl _)).
  - exact (proj2 (proj2 (proj2
             (target_weight_max_documented sample.task_weight_weight (eq_refl _))))
             3 8 (eq_refl _) (eq_refl _) (eq_refl _) (eq_refl _)).
Defined.

Lemma explicit_target_truncation_verbatim_witness :
  target_truncation sample.task_explicit_truncation = Some [PyStr "tb"; PyInt 6]
  ∧ target_weight_max sample.task_explicit_truncation = Ok "6 6 6 6 6"
  ∧ (run (generate_tbme sample.task_explicit_truncation "-00")).2 !! 2%nat
    = Some "set-target-indexing orbitals-00.dat 6 6 6 6 6".
Proof.
  split; [reflexivity|].
  pose proof (explicit_target_truncation_verbatim sample.task_explicit_truncation "-00"
                [PyStr "tb"; PyInt 6] (eq_refl _)) as (Htwm & _ & Hline).
  split; [exact Htwm|].
  refine (Hline _ (eq_refl _) _). vm_compute. reflexivity.
Defined.

Lemma unresolvable_source_raises_witness :
  accumulate_targets sample.task_unresolvable
  = Ok (sample.targets_of sample.task_unresolvable)
  ∧ "Vcustom" ∈ required_sources (sample.targets_of sample.task_unresolvable)
  ∧ unresolvable sample.task_unresolvable "Vcustom"
  ∧ ∃ id',
      id' ∈ required_sources (sample.targets_of sample.task_unresolvable)
      ∧ unresolvable sample.task_unresolvable id'
      ∧ (∀ lines, ∃ lines',
           source_lines (required_sources (sample.targets_of sample.task_unresolvable))
             (resolve_sources sample.task_unresolvable ""
                (required_sources (sample.targets_of sample.task_unresolvable)))
             lines
           = (Raise (KeyError id'), lines'))
      ∧ (∀ target_weight_max',
           sanity_check sample.task_unresolvable = Ok tt →
           target_weight_max sample.task_unresolvable = Ok target_weight_max' →
           ∃ lines,
             run (generate_tbme sample.task_unresolvable "") = (Raise (KeyError id'), lines))
      ∧ (∃ e lines, run (generate_tbme sample.task_unresolvable "") = (Raise e, lines)).
Proof.
  assert (accumulate_targets sample.task_unresolvable
          = Ok (sample.targets_of sample.task_unresolvable)) as Htargets
    by (vm_compute; reflexivity).
  assert ("Vcustom" ∈ required_sources (sample.targets_of sample.task_unresolvable))
    as Hreq by by_compute.
  assert (unresolvable sample.task_unresolvable "Vcustom") as Hun.
  { split; [by_compute|]. split; [by_compute|]. split; by_compute. }
  exact (conj Htargets (conj Hreq (conj Hun
           (unresolvable_source_raises sample.task_unresolvable ""
              (sample.targets_of sample.task_unresolvable) "Vcustom"
              Htargets Hreq Hun)))).
Defined.

(** The run at [sample.task_unresolvable]: the KeyError names the id, and the
    lines produced so far end with the sources declared before it. *)
Example unresolvable_source_run :
  ∃ lines,
    run (generate_tbme sample.task_unresolvable "") = (Raise (KeyError "Vcustom"), lines)
    ∧ drop 14 lines = [ "define-source operator Uksqr";
                        "define-source operator Ursqr";
                        "define-source input VNN JISP16-tb-20-20.0.bin" ].
Proof. eexists. split; vm_compute; reflexivity. Qed.

Lemma script_target_blocks_witness :
  run (generate_tbme sample.task0 "-00")
  = (Ok (runner "-00" (run (generate_tbme sample.task0 "-00")).2),
     (run (generate_tbme sample.task0 "-00")).2)
  ∧ ∃ targets target_weight_max' decls,
      accumulate_targets sample.task0 = Ok targets
      ∧ target_weight_max sample.task0 = Ok target_weight_max'
      ∧ declare_sources
          (resolve_sources sample.task0 "-00" (required_sources targets))
          (sorted (required_sources targets))
        = (decls, None)
      ∧ (run (generate_tbme sample.task0 "-00")).2
        = (preamble sample.task0 "-00" target_weight_max' ++ decls ++ [""])
          ++ concat (target_block "-00" <$> targets) ++ [""]
      ∧ (∀ basename operator,
           target_block "-00" (basename, operator)
           = [ "define-target work" +:+ "-00" +:+ "/" +:+ basename +:+ ".bin" ]
             ++ ((λ term : string * float,
                    "  add-source " +:+ term.1 +:+ " " +:+ python.format_e term.2)
                 <$> operator)
             ++ [""]).
Proof.
  assert (run (generate_tbme sample.task0 "-00")
          = (Ok (runner "-00" (run (generate_tbme sample.task0 "-00")).2),
             (run (generate_tbme sample.task0 "-00")).2)) as Hrun
    by (vm_compute; reflexivity).
  exact (conj Hrun (script_target_blocks sample.task0 "-00" _ _ Hrun)).
Defined.

(** C4, as stated, fails at [sample.task_zero_coefficient]: the Hamiltonian of
    the task has the term VC_unscaled with coefficient zero, the script is
    completed, and the block of tbme-H has an add-source line for that
    term. *)
Lemma zero_coefficient_term_emitted :
  hamiltonian sample.task_zero_coefficient
  = Some [("VNN", 1%float); ("VC_unscaled", 0%float)]
  ∧ ∃ actions lines,
      run (generate_tbme sample.task_zero_coefficient "") = (Ok actions, lines)
      ∧ take 4 (drop 20 lines)
        = [ "define-target work/tbme-H.bin";
            "  add-source VNN 1.000000e+00";
            "  add-source VC_unscaled 0.000000e+00";
            "" ].
Proof.
  split; [reflexivity|]. eexists _, _. split; vm_compute; reflexivity.
Qed.

Lemma VC_unscaled_default_descriptor_witness :
  "VC_unscaled" ∈ required_sources (sample.targets_of sample.task_coulomb_generic)
  ∧ ∃ source,
      default_sources sample.task_coulomb_generic ""
        (required_sources (sample.targets_of sample.task_coulomb_generic))
      !! "VC_unscaled" = Some source
      ∧ filename source = Some "VC-tb-20-20.0.bin"
      ∧ xform_filename source = Some "radial-olap-coul.dat"
      ∧ xform_truncation source = Some [PyStr "tb"; PyInt 20].
Proof.
  assert ("VC_unscaled"
          ∈ required_sources (sample.targets_of sample.task_coulomb_generic))
    as Hreq by by_compute.
  split; [exact Hreq|].
  destruct (VC_unscaled_default_descriptor sample.task_coulomb_generic "" _ Hreq)
    as (source & Hlookup & Hfile & _ & Hgeneric & _).
  destruct (Hgeneric (eq_refl _)) as [Hxform Htrunc].
  exists source. exact (conj Hlookup (conj Hfile (conj Hxform Htrunc))).
Defined.

Lemma user_source_replaces_default_witness :
  user_tbme_sources sample.task_user_source
  = Some ([] ++ ("VNN", mkSource (Some "my-VNN.bin") None None) :: [])
  ∧ default_sources sample.task_user_source "" {["VNN"]} !! "VNN"
    = Some (mkSource (Some "JISP16-tb-20-20.0.bin") (Some "radial-olap-int.dat")
              (Some [PyStr "tb"; PyInt 20]))
  ∧ resolve_sources sample.task_user_source "" {["VNN"]} !! "VNN"
    = Some (mkSource (Some "my-VNN.bin") None None).
Proof.
  split; [reflexivity|]. split; [vm_compute; reflexivity|].
  exact (proj1 (proj2
           (user_source_replaces_default sample.task_user_source "" {["VNN"]}
              [] [] "VNN" (mkSource (Some "my-VNN.bin") None None)
              (eq_refl _) (not_elem_of_nil _)))).
Defined.

Lemma derived_targets_only_when_absent_witness :
  accumulate_targets sample.task_user_rrel2
  = Ok [ ("tbme-H", sample.Hamiltonian 4 20 20 1 false 1);
         ("tbme-Ncm", [("identity", 1%float)]);
         ("tbme-QxQ", [("Ursqr", 2%float)]);
         ("tbme-rrel2", [("Ursqr", 1%float)]);
         ("tbme-T2", [("T2", 1%float)]) ]
  ∧ getitem "tbme-rrel2" (sample.targets_of sample.task_user_rrel2)
    = Some (operators.TwoBodyOperator [("Ursqr", 1%float)])
  ∧ getitem "tbme-Ncm" (sample.targets_of sample.task_user_rrel2)
    = Some (operators.TwoBodyOperator [("identity", 1%float)]).
Proof.
  assert (accumulate_targets sample.task_user_rrel2
          = Ok (sample.targets_of sample.task_user_rrel2)) as Htargets
    by (vm_compute; reflexivity).
  split; [vm_compute; reflexivity|].
  destruct (derived_targets_only_when_absent sample.task_user_rrel2 _ Htargets)
    as (T0 & rest & _ & _ & _ & _ & _ & _ & Huser).
  split.
  - exact (proj1 (Huser [("Ncm", [("identity", 1%float)]); ("QxQ", [("Ursqr", 2%float)])]
                    "rrel2" [("Ursqr", 1%float)] []
                    (eq_refl _) (not_elem_of_nil _) (or_introl (eq_refl _)))).
  - refine (proj1 (Huser [] "Ncm" [("identity", 1%float)]
                     [("QxQ", [("Ursqr", 2%float)]); ("rrel2", [("Ursqr", 1%float)])]
                     (eq_refl _) _ (or_intror (eq_refl _)))).
    by_compute.
Defined.

(** The script is the same when the sets are iterated in reverse. *)
Example reversed_order_same_script :
  run (@generate_tbme _ sample.reversed _ _ _ sample.task0 "-00")
  = run (@generate_tbme _ sample.SetOrder _ _ _ sample.task0 "-00").
Proof. vm_compute. reflexivity. Qed.

(** The pair of modes (weight-based, Nmax) at [sample.task_weight_Nmax]: the
    script is completed with the bound (2, 4). *)
Example undocumented_pair_script :
  ∃ actions lines,
    run (generate_tbme sample.task_weight_Nmax "") = (Ok actions, lines)
    ∧ lines !! 2%nat = Some "set-target-indexing orbitals.dat 2 2 4 4 4".
Proof. eexists _, _. split; vm_compute; reflexivity. Qed.

(** The scenario of the specification: the targets are tbme-H, tbme-rrel2
    and tbme-Ncm, and VC_unscaled is not required. *)
Example scenario_direct_no_coulomb :
  keys (sample.targets_of sample.task0) = ["tbme-H"; "tbme-rrel2"; "tbme-Ncm"]
  ∧ "VC_unscaled" ∉ required_sources (sample.targets_of sample.task0).
Proof. split; [vm_compute; reflexivity | by_compute]. Qed.

(** *** Further closed instances *)

Lemma targets_begin_with_H_witness :
  accumulate_targets sample.task_user_rrel2
  = Ok (sample.targets_of sample.task_user_rrel2)
  ∧ ∃ rest,
      keys (sample.targets_of sample.task_user_rrel2) = "tbme-H" :: rest
      ∧ NoDup (keys (sample.targets_of sample.task_user_rrel2))
      ∧ "tbme-rrel2" ∈ rest
      ∧ "tbme-Ncm" ∈ rest.
Proof.
  assert (accumulate_targets sample.task_user_rrel2
          = Ok (sample.targets_of sample.task_user_rrel2)) as Hacc
    by (vm_compute; reflexivity).
  exact (conj Hacc (targets_begin_with_H sample.task_user_rrel2 _ Hacc)).
Defined.

Lemma observable_sets_assign_witness :
  keys (sample.targets_of sample.task_all_sets)
  = [ "tbme-H"; "tbme-L2"; "tbme-QxQ"; "tbme-rrel2"; "tbme-Ncm"; "tbme-Trel";
      "tbme-Tcm"; "tbme-VNN"; "tbme-VC"; "tbme-Sp2"; "tbme-Sn2"; "tbme-S2";
      "tbme-J2"; "tbme-T2" ]
  ∧ getitem "tbme-L2" (sample.targets_of sample.task_all_sets) = Some operators.L2
  ∧ getitem "tbme-VNN" (sample.targets_of sample.task_all_sets) = Some operators.VNN
  ∧ getitem "tbme-T2" (sample.targets_of sample.task_all_sets) = Some operators.T2.
Proof.
  assert (accumulate_targets sample.task_all_sets
          = Ok (sample.targets_of sample.task_all_sets)) as Hacc
    by (vm_compute; reflexivity).
  destruct (observable_sets_assign sample.task_all_sets _ Hacc) as (HH & Ham & Hiso).
  split; [vm_compute; reflexivity|].
  split; [exact (proj1 (Ham ltac:(by_compute)))|].
  split; [exact (proj1 (proj2 (proj2 (HH ltac:(by_compute)))))|].
  exact (Hiso ltac:(by_compute)).
Defined.

Lemma user_observable_kept_witness :
  getitem "tbme-QxQ" (sample.targets_of sample.task_all_sets)
  = Some (operators.TwoBodyOperator [("Ursqr", 2%float)]).
Proof.
  assert (accumulate_targets sample.task_all_sets
          = Ok (sample.targets_of sample.task_all_sets)) as Hacc
    by (vm_compute; reflexivity).
  refine (user_observable_kept sample.task_all_sets _
            [("L2", [("Ursqr", 3%float)])] [] "QxQ" [("Ursqr", 2%float)]
            Hacc (eq_refl _) (not_elem_of_nil _) _).
  by_compute.
Defined.

Lemma hamiltonian_target_witness :
  hamiltonian sample.task_empty_hamiltonian = Some []
  ∧ ∃ bsqr_intr bsqr_coul,
      truediv (hw sample.task_empty_hamiltonian) (get_hw_cm sample.task_empty_hamiltonian)
      = Ok bsqr_intr
      ∧ truediv (get_hw_coul_rescaled sample.task_empty_hamiltonian)
          (hw_coul sample.task_empty_hamiltonian)
        = Ok bsqr_coul
      ∧ getitem "tbme-H" (sample.targets_of sample.task_empty_hamiltonian)
        = Some (operators.Hamiltonian (get_A sample.task_empty_hamiltonian)
                  (hw sample.task_empty_hamiltonian) (a_cm sample.task_empty_hamiltonian)
                  bsqr_intr (use_coulomb sample.task_empty_hamiltonian) bsqr_coul).
Proof.
  assert (accumulate_targets sample.task_empty_hamiltonian
          = Ok (sample.targets_of sample.task_empty_hamiltonian)) as Hacc
    by (vm_compute; reflexivity).
  split; [reflexivity|].
  exact (hamiltonian_target sample.task_empty_hamiltonian _ Hacc (not_elem_of_nil _)).
Defined.

Lemma hw_coul_zero_raises_witness :
  use_coulomb sample.task_hw_coul_zero = false
  ∧ accumulate_targets sample.task_hw_coul_zero = Raise ZeroDivisionError.
Proof.
  split; [reflexivity|].
  exact (hw_coul_zero_raises sample.task_hw_coul_zero
           (eq_refl _) (eq_refl _) (eq_refl _)).
Defined.

Lemma VNN_default_descriptor_witness :
  basis_mode sample.task_dilated = modes.BasisMode.kDilated
  ∧ "VNN" ∈ required_sources (sample.targets_of sample.task_dilated)
  ∧ ∃ source,
      default_sources sample.task_dilated ""
        (required_sources (sample.targets_of sample.task_dilated)) !! "VNN"
      = Some source
      ∧ filename source = Some "JISP16-tb-20-20.0.bin"
      ∧ xform_filename source = Some "radial-olap-int.dat"
      ∧ xform_truncation source = Some [PyStr "tb"; PyInt 20].
Proof.
  assert ("VNN" ∈ required_sources (sample.targets_of sample.task_dilated))
    as Hreq by by_compute.
  split; [reflexivity|]. split; [exact Hreq|].
  destruct (VNN_default_descriptor sample.task_dilated "" _ Hreq)
    as (source & Hlookup & Hfile & _ & Hxform).
  destruct (Hxform ltac:(discriminate)) as [Hxf Hxt].
  exists source. exact (conj Hlookup (conj Hfile (conj Hxf Hxt))).
Defined.

(** In the dilated basis mode VC_unscaled has no transformation, where VNN
    has one. *)
Example dilated_VC_unscaled_plain :
  default_sources sample.task_dilated ""
    (required_sources (sample.targets_of sample.task_dilated)) !! "VC_unscaled"
  = Some (mkSource (Some "VC-tb-20-20.0.bin") None None).
Proof. vm_compute. reflexivity. Qed.

Lemma unrequired_user_source_ignored_witness :
  ("Vunused" ∉ required_sources (sample.targets_of sample.task0))
  ∧ source_lines (required_sources (sample.targets_of sample.task0))
      (resolve_sources
         (with_user_sources
            (Some (default [] (user_tbme_sources sample.task0)
                   ++ [("Vunused", mkSource (Some "unused.bin") None None)]))
            sample.task0)
         "" (required_sources (sample.targets_of sample.task0))) []
    = source_lines (required_sources (sample.targets_of sample.task0))
        (resolve_sources sample.task0 ""
           (required_sources (sample.targets_of sample.task0))) [].
Proof.
  assert ("Vunused" ∉ required_sources (sample.targets_of sample.task0)) as Hnot
    by by_compute.
  split; [exact Hnot|].
  refine (proj2 (unrequired_user_source_ignored sample.task0 ""
                   (required_sources (sample.targets_of sample.task0))
                   [("Vunused", mkSource (Some "unused.bin") None None)] _) []).
  intros id Hin. apply list_elem_of_singleton in Hin as ->. exact Hnot.
Defined.

Lemma source_declarations_sorted_witness :
  run (generate_tbme sample.task0 "")
  = (Ok (runner "" (run (generate_tbme sample.task0 "")).2),
     (run (generate_tbme sample.task0 "")).2)
  ∧ sorted (required_sources (sample.targets_of sample.task0))
    = ["Uksqr"; "Ursqr"; "VNN"; "Vk1k2"; "Vr1r2"; "identity"]
  ∧ ∃ targets target_weight_max' decls,
      accumulate_targets sample.task0 = Ok targets
      ∧ target_weight_max sample.task0 = Ok target_weight_max'
      ∧ (run (generate_tbme sample.task0 "")).2
        = preamble sample.task0 "" target_weight_max' ++ decls ++ [""]
          ++ concat (target_block "" <$> targets) ++ [""]
      ∧ Forall2 (λ id line, ∃ source,
                   resolve_sources sample.task0 "" (required_sources targets) !! id
                   = Some source
                   ∧ line = operators.get_h2mixer_line source id)
                (sorted (required_sources targets)) decls
      ∧ Sorted str_le (sorted (required_sources targets))
      ∧ NoDup (sorted (required_sources targets))
      ∧ (∀ id, id ∈ sorted (required_sources targets) ↔ id ∈ required_sources targets).
Proof.
  assert (run (generate_tbme sample.task0 "")
          = (Ok (runner "" (run (generate_tbme sample.task0 "")).2),
             (run (generate_tbme sample.task0 "")).2)) as Hrun
    by (vm_compute; reflexivity).
  split; [exact Hrun|]. split; [vm_compute; reflexivity|].
  exact (source_declarations_sorted sample.task0 "" _ _ Hrun).
Defined.

Lemma add_source_declared_before_witness :
  ∃ source i j,
    resolve_sources sample.task0 "" (required_sources (sample.targets_of sample.task0))
    !! "Ursqr" = Some source
    ∧ (run (generate_tbme sample.task0 "")).2 !! i
      = Some (operators.get_h2mixer_line source "Ursqr")
    ∧ (run (generate_tbme sample.task0 "")).2 !! j
      = Some ("  add-source " +:+ "Ursqr" +:+ " " +:+ python.format_e 0.1875%float)
    ∧ (i < j)%nat.
Proof.
  assert (run (generate_tbme sample.task0 "")
          = (Ok (runner "" (run (generate_tbme sample.task0 "")).2),
             (run (generate_tbme sample.task0 "")).2)) as Hrun
    by (vm_compute; reflexivity).
  assert (accumulate_targets sample.task0 = Ok (sample.targets_of sample.task0))
    as Hacc by (vm_compute; reflexivity).
  refine (add_source_declared_before sample.task0 "" _ _ _ "tbme-rrel2"
            [("Ursqr", 0.1875%float); ("Vr1r2", (-0.125)%float)] "Ursqr" 0.1875%float
            Hrun Hacc _ _).
  - apply list_elem_of_In. vm_compute. right. left. reflexivity.
  - by left.
Defined.

Lemma target_weight_max_raises_witness :
  target_weight_max sample.task_missing_Nv = Raise (KeyError "Nv")
  ∧ run (generate_tbme sample.task_missing_Nv "")
    = (Raise (KeyError "Nv"), ["# task: {'nuclide': (2, 2), 'hw': 20.0, ...}"; ""]).
Proof.
  assert (target_weight_max sample.task_missing_Nv = Raise (KeyError "Nv")) as Hraise
    by (vm_compute; reflexivity).
  split; [exact Hraise|].
  refine (proj2 (proj2 (target_weight_max_raises sample.task_missing_Nv _ Hraise))
            "" (sample.targets_of sample.task_missing_Nv) (eq_refl _) _).
  vm_compute. reflexivity.
Defined.
